(** * RAG chat backend: workflow engine and streaming transport

    A shallow embedding of
      - [backend/app/engine/workflow.py]  (the [ChatEngine] workflow),
      - [backend/app/engine/__init__.py]  ([get_chat_engine]),
      - [backend/app/api/routers/chat.py] (the [chat] endpoint and its
        [event_generator]),
    followed by the properties of the natural-language specification that
    are stated about them.

    Conventions.
      - A Python [str] is a Rocq [string]; each character stands for one
        code point below 256.
      - A Python exception is a value of [Exc]; code that may raise returns
        a sum [Exc + A].
      - The workflow steps mutate a [Context]; they are written in a state
        and error monad [Step].
      - The collaborators that live outside the repository (retriever,
        language model, memory buffer, [str.format], token counter, the
        client connection) are Section variables. *)

From Stdlib Require Import ZArith Ascii DecimalString Lia.
From stdpp Require Import base option list strings gmap.

Local Open Scope Z_scope.

(** ** Python values used by the code *)

(** [llama_index.core.llms.MessageRole]. *)
Inductive MessageRole :=
  | SYSTEM | USER | ASSISTANT | FUNCTION | TOOL | CHATBOT | MODEL.

Global Instance MessageRole_eq_dec : EqDecision MessageRole.
Proof. solve_decision. Defined.

(** [ChatMessage(role=..., content=...)]; the endpoint's [_Message] has
    the same two fields and is converted field by field. *)
Record ChatMessage := mkChatMessage {
  role : MessageRole;
  content : string;
}.

Global Instance ChatMessage_eq_dec : EqDecision ChatMessage.
Proof. solve_decision. Defined.

(** [NodeWithScore]: the code reads only
    [n.node.get_content(metadata_mode="none")]. *)
Record NodeWithScore := mkNode {
  get_content : string;
}.

(** One item of the model's response stream: [chunk.delta] and
    [chunk.message]. *)
Record ChatResponse := mkChatResponse {
  chunk_message : ChatMessage;
  delta : string;
}.

(** Exceptions that the modelled code can raise or let through. *)
Inductive Exc :=
  | ValueError (msg : string)
  | KeyError (key : string)
  | UnboundLocalError (var : string)
  | IndexError (msg : string)
  | CollaboratorError (msg : string).

Global Instance Exc_eq_dec : EqDecision Exc.
Proof. solve_decision. Defined.

(** Truth value of a [str | None]: [None] and the empty string are false. *)
Definition truthy (s : option string) : bool :=
  match s with
  | None => false
  | Some EmptyString => false
  | Some (String _ _) => true
  end.

(** [a or b] on such values. *)
Definition py_or (a : option string) (b : string) : string :=
  match a with
  | Some s => if truthy a then s else b
  | None => b
  end.

(** [str(n)] for a length and for an [int]. *)
Definition str_of_nat (n : nat) : string :=
  NilEmpty.string_of_uint (Nat.to_uint n).

Definition str_of_Z (z : Z) : string :=
  NilEmpty.string_of_int (Z.to_int z).

(** [sep.join(parts)]. *)
Fixpoint join (sep : string) (parts : list string) : string :=
  match parts with
  | [] => ""
  | [s] => s
  | s :: rest => s +:+ sep +:+ join sep rest
  end.

Definition LF : string := String (ascii_of_nat 10) EmptyString.

(** ** [json.dumps] with its default settings *)

#[warnings="-register-all"]
Inductive Json :=
  | JStr (s : string)
  | JList (items : list Json)
  | JDict (fields : list (string * Json)).

Definition hex_digit (n : N) : ascii :=
  ascii_of_N (if (n <? 10)%N then 48 + n else 87 + n).

(** ["\\u{0:04x}"] for a code point below 256. *)
Definition u_escape (c : ascii) : string :=
  let n := N_of_ascii c in
  "\u00" +:+ String (hex_digit (n / 16)) (String (hex_digit (n mod 16)) "").

(** One character under [ESCAPE_ASCII]: the short escapes of [ESCAPE_DCT],
    printable ASCII unchanged, everything else as a [\u] escape. *)
Definition escape_char (c : ascii) : string :=
  let n := N_of_ascii c in
  if (n =? 34)%N then "\" +:+ String c ""
  else if (n =? 92)%N then "\\"
  else if (n =? 10)%N then "\n"
  else if (n =? 13)%N then "\r"
  else if (n =? 9)%N then "\t"
  else if (n =? 8)%N then "\b"
  else if (n =? 12)%N then "\f"
  else if ((32 <=? n) && (n <=? 126))%N then String c ""
  else u_escape c.

Fixpoint escape_chars (s : string) : string :=
  match s with
  | EmptyString => ""
  | String c rest => escape_char c +:+ escape_chars rest
  end.

Definition DQ : string := String (ascii_of_nat 34) EmptyString.

Definition encode_basestring_ascii (s : string) : string :=
  DQ +:+ escape_chars s +:+ DQ.

Fixpoint json_dumps (j : Json) : string :=
  match j with
  | JStr s => encode_basestring_ascii s
  | JList items => "[" +:+ join ", " (map json_dumps items) +:+ "]"
  | JDict fields =>
      "{" +:+
      join ", " (map (fun kv => encode_basestring_ascii (fst kv) +:+ ": "
                                +:+ json_dumps (snd kv)) fields)
      +:+ "}"
  end.

(** ** Events ([workflow.py], lines 12-26) *)

Record RetrieveEvent := mkRetrieveEvent {
  re_query : string;
}.

Record PostProcessEvent := mkPostProcessEvent {
  pp_query : string;
  pp_nodes : list NodeWithScore;
}.

Record SynthesizeEvent := mkSynthesizeEvent {
  sy_query : string;
  sy_nodes : list NodeWithScore;
}.

(** [type: Literal["data", "text"]]. *)
Inductive ProgressType := TData | TText.

(** [status: Literal["loading", "done"]]. *)
Inductive ProgressStatus := Loading | Done.

Global Instance ProgressType_eq_dec : EqDecision ProgressType.
Proof. solve_decision. Defined.

Global Instance ProgressStatus_eq_dec : EqDecision ProgressStatus.
Proof. solve_decision. Defined.

Record ProgressEvent := mkProgressEvent {
  type : ProgressType;
  status : ProgressStatus;
  message : string;
}.

Global Instance ProgressEvent_eq_dec : EqDecision ProgressEvent.
Proof. solve_decision. Defined.

Definition type_str (t : ProgressType) : string :=
  match t with TData => "data" | TText => "text" end.

Definition status_str (s : ProgressStatus) : string :=
  match s with Loading => "loading" | Done => "done" end.

(** [event.model_dump()]: the fields in declaration order. *)
Definition model_dump (event : ProgressEvent) : Json :=
  JDict [ ("type", JStr (type_str (type event)));
          ("status", JStr (status_str (status event)));
          ("message", JStr (message event)) ].


(** ** The workflow context and the [Step] monad *)

(** [ChatMemoryBuffer.from_defaults(llm=..., chat_history=messages)]. *)
Record ChatMemoryBuffer := mkMemory {
  chat_history : list ChatMessage;
}.

(** The per-run [Context]: the key/value store behind [ctx.set] and
    [ctx.get], and the queue behind [ctx.write_event_to_stream], oldest
    event first.  [llm_requests] records the argument of every
    [llm.astream_chat] call of the run, oldest first; no code reads it. *)
Record Context := mkContext {
  globals : gmap string ChatMemoryBuffer;
  streaming_queue : list ProgressEvent;
  llm_requests : list (list ChatMessage);
}.

Definition new_context : Context :=
  {| globals := ∅; streaming_queue := []; llm_requests := [] |}.

Definition Step (A : Type) : Type := Context -> (Exc + A) * Context.

Definition ret {A} (a : A) : Step A := fun ctx => (inr a, ctx).

Definition raise {A} (e : Exc) : Step A := fun ctx => (inl e, ctx).

Definition bind {A B} (m : Step A) (k : A -> Step B) : Step B :=
  fun ctx =>
    match m ctx with
    | (inr a, ctx') => k a ctx'
    | (inl e, ctx') => (inl e, ctx')
    end.

Notation "'let!' x ':=' m 'in' k" := (bind m (fun x => k))
  (at level 10, x name, m at level 100, k at level 200).
Notation "m '>>' k" := (bind m (fun _ => k))
  (at level 90, right associativity).

(** A collaborator call: its exception, if any, propagates. *)
Definition await {A} (r : Exc + A) : Step A :=
  match r with
  | inl e => raise e
  | inr a => ret a
  end.

Definition ctx_set (key : string) (value : ChatMemoryBuffer) : Step unit :=
  fun ctx =>
    (inr tt, {| globals := <[key := value]> (globals ctx);
                streaming_queue := streaming_queue ctx;
                llm_requests := llm_requests ctx |}).

Definition ctx_get (key : string) : Step ChatMemoryBuffer :=
  fun ctx =>
    match globals ctx !! key with
    | Some v => (inr v, ctx)
    | None => (inl (ValueError ("Key '" +:+ key +:+ "' not found in Context")), ctx)
    end.

Definition write_event_to_stream (ev : ProgressEvent) : Step unit :=
  fun ctx =>
    (inr tt, {| globals := globals ctx;
                streaming_queue := streaming_queue ctx ++ [ev];
                llm_requests := llm_requests ctx |}).

Definition log_llm_request (history : list ChatMessage) : Step unit :=
  fun ctx =>
    (inr tt, {| globals := globals ctx;
                streaming_queue := streaming_queue ctx;
                llm_requests := llm_requests ctx ++ [history] |}).

(** ** [workflow.py] *)

Definition CONTEXT_PROMPT : string :=
  "Here is some extra context from a knowledge base that may help you assist the user with their latest message."
  +:+ LF +:+
  "If you don't know the answer, just say so. Don't try to make up an answer."
  +:+ LF +:+ "-----" +:+ LF +:+ "{context}" +:+ LF +:+ "-----" +:+ LF +:+
  "Latest message: {message}".

(** The keyword arguments of the [StartEvent]; [ev.get(key)] is [None]
    both for an absent key and for a key bound to [None]. *)
Record StartEvent := mkStartEvent {
  start_query : option string;
  start_messages : option (list ChatMessage);
}.

(** The response stream of the model: the chunks it yields and, when the
    stream breaks, the exception raised after the last of them. *)
Record ResponseGen := mkResponseGen {
  gen_chunks : list ChatResponse;
  gen_failure : option Exc;
}.

(** The dictionary carried by the [StopEvent]. *)
Record PipelineResult := mkPipelineResult {
  res_query : string;
  res_messages : list ChatMessage;
  res_response : string;
  res_source_nodes : list NodeWithScore;
}.

(** What [handler.stream_events()] delivers: the progress events of the
    run, the [StopEvent] with which the engine closes the stream, or an
    event of any other class. *)
Inductive StreamEvent :=
  | Progress (event : ProgressEvent)
  | Stop
  | Other (class_name : string).

(** The handle returned by [chat_engine.run(...)]: the event stream and
    the outcome of awaiting the run. *)
Record Handler := mkHandler {
  stream_events : list StreamEvent;
  final_result : Exc + PipelineResult;
}.

Section Backend.

(** The document index and its retriever:
    [index.as_retriever(similarity_top_k=k, ...).aretrieve(query)]. *)
Variable BaseIndex : Type.
Variable aretrieve : BaseIndex -> Z -> string -> Exc + list NodeWithScore.

(** [memory.get(query)]. *)
Variable memory_get : ChatMemoryBuffer -> string -> list ChatMessage.

(** [template.format(context=..., message=...)]. *)
Variable str_format : string -> string -> string -> Exc + string.

(** [Settings.llm.astream_chat(chat_history)]. *)
Variable astream_chat : list ChatMessage -> Exc + ResponseGen.

Record ChatEngine := mkChatEngine {
  index : BaseIndex;
  system_prompt : option string;
  top_k : Z;
  context_prompt : string;
}.

(** [ChatEngine.__init__]. *)
Definition ChatEngine_init (index : BaseIndex) (top_k : Z)
    (system_prompt context_prompt : option string) : ChatEngine :=
  {| index := index;
     system_prompt := system_prompt;
     top_k := top_k;
     context_prompt := py_or context_prompt CONTEXT_PROMPT |}.

Definition setup (self : ChatEngine) (ev : StartEvent) : Step RetrieveEvent :=
  let query := start_query ev in
  let messages := start_messages ev in
  match query, messages with
  | Some query, Some messages =>
      let memory := mkMemory messages in
      ctx_set "memory" memory >>
      ret (mkRetrieveEvent query)
  | _, _ => raise (ValueError "Query and messages are required!")
  end.

Definition retrieve (self : ChatEngine) (ev : RetrieveEvent)
    : Step PostProcessEvent :=
  write_event_to_stream
    (mkProgressEvent TData Loading "Retrieving relevant nodes...") >>
  let query := re_query ev in
  let! nodes := await (aretrieve (index self) (top_k self) query) in
  write_event_to_stream
    (mkProgressEvent TData Done
       ("Retrieved " +:+ str_of_nat (length nodes)
        +:+ " relevant nodes for context.")) >>
  ret (mkPostProcessEvent query nodes).

Definition post_process (self : ChatEngine) (ev : PostProcessEvent)
    : Step SynthesizeEvent :=
  ret (mkSynthesizeEvent (pp_query ev) (pp_nodes ev)).

(** The [async for chunk in response_gen] loop; [chunk] is the loop
    variable, unbound ([None]) until the first iteration. *)
Fixpoint stream_chunks (chunks : list ChatResponse)
    (chunk : option ChatResponse) : Step (option ChatResponse) :=
  match chunks with
  | [] => ret chunk
  | c :: rest =>
      write_event_to_stream (mkProgressEvent TText Loading (delta c)) >>
      stream_chunks rest (Some c)
  end.

Definition synthesize (self : ChatEngine) (ev : SynthesizeEvent)
    : Step PipelineResult :=
  write_event_to_stream
    (mkProgressEvent TData Loading "Synthesizing response...") >>
  let! memory := ctx_get "memory" in
  let chat_history := memory_get memory (sy_query ev) in
  let context_str := join (LF +:+ LF) (map get_content (sy_nodes ev)) in
  let! context_query :=
    await (str_format (context_prompt self) context_str (sy_query ev)) in
  let chat_history := chat_history ++ [mkChatMessage USER context_query] in
  let chat_history :=
    match system_prompt self with
    | Some prompt =>
        if truthy (system_prompt self)
        then [mkChatMessage SYSTEM prompt] ++ chat_history
        else chat_history
    | None => chat_history
    end in
  log_llm_request chat_history >>
  let! response_gen := await (astream_chat chat_history) in
  write_event_to_stream
    (mkProgressEvent TData Done "Finished creating response stream.") >>
  let! chunk := stream_chunks (gen_chunks response_gen) None in
  match gen_failure response_gen with
  | Some e => raise e
  | None =>
      match chunk with
      | None => raise (UnboundLocalError "chunk")
      | Some chunk =>
          ret {| res_query := sy_query ev;
                 res_messages := chat_history;
                 res_response := content (chunk_message chunk);
                 res_source_nodes := sy_nodes ev |}
      end
  end.

(** The steps chained by the event types they accept and return. *)
Definition workflow (self : ChatEngine) (ev : StartEvent)
    : Step PipelineResult :=
  let! ev1 := setup self ev in
  let! ev2 := retrieve self ev1 in
  let! ev3 := post_process self ev2 in
  synthesize self ev3.

(** [self.run(query=..., messages=...)]: the steps run on a fresh
    context; the stream carries what they wrote, then the [StopEvent]. *)
Definition run (self : ChatEngine) (query : string)
    (messages : list ChatMessage) : Handler :=
  let out := workflow self (mkStartEvent (Some query) (Some messages))
               new_context in
  {| stream_events := map Progress (streaming_queue (snd out)) ++ [Stop];
     final_result := fst out |}.

(** ** [engine/__init__.py] *)

(** [get_index()] and [int(...)] on an environment string. *)
Variable get_index : BaseIndex.
Variable py_int : string -> Exc + Z.

Definition get_chat_engine (environ : gmap string string)
    : Exc + ChatEngine :=
  let system_prompt := environ !! "SYSTEM_PROMPT" in
  let context_prompt := environ !! "CONTEXT_PROMPT" in
  let top_k :=
    match environ !! "TOP_K" with
    | Some s => py_int s
    | None => inr 3
    end in
  let index := get_index in
  match top_k with
  | inl e => inl e
  | inr top_k => inr (ChatEngine_init index top_k system_prompt context_prompt)
  end.

(** ** [routers/chat.py] *)

Record _Message := mk_Message {
  msg_role : MessageRole;
  msg_content : string;
}.

Record _ChatData := mk_ChatData {
  messages : list _Message;
}.

Definition stream_part_types : gmap string string :=
  list_to_map
    [ ("text", "0");
      ("function_call", "1");
      ("data", "2");
      ("error", "3");
      ("assistant_message", "4");
      ("assistant_data_stream_part", "5");
      ("data_stream_part", "6");
      ("message_annotations_stream_part", "7") ].

(** [d[key]]. *)
Definition subscript (d : gmap string string) (key : string) : Exc + string :=
  match d !! key with
  | Some v => inr v
  | None => inl (KeyError key)
  end.

(** What the generator inside [chat] does, in order. *)
Inductive Action :=
  | Fetch (event : StreamEvent)
  | Poll (closed : bool)
  | Yield (line : string)
  | AwaitResult
  | Raise (e : Exc).

(** The answer of the [n]-th [request.is_disconnected()] of a request,
    counting from 0, and the two [TokenCounter] methods. *)
Variable is_disconnected : nat -> bool.
Variable estimate_tokens_in_messages : list ChatMessage -> Z.
Variable get_string_tokens : string -> Z.

(** The line yielded for a [ProgressEvent] (lines 74-78). *)
Definition render (event : ProgressEvent) : Exc + string :=
  if decide (type_str (type event) = "text") then
    match subscript stream_part_types (type_str (type event)) with
    | inl e => inl e
    | inr code =>
        inr (code +:+ ":" +:+ json_dumps (JStr (message event)) +:+ LF)
    end
  else
    match subscript stream_part_types (type_str (type event)) with
    | inl e => inl e
    | inr code =>
        inr (code +:+ ":" +:+ json_dumps (JList [model_dump event]) +:+ LF)
    end.

(** The [async for event in handler.stream_events()] loop; [n] counts
    the polls made so far and [after] is the code below the loop, reached
    by exhaustion and by [break] alike. *)
Fixpoint event_loop (events : list StreamEvent) (n : nat)
    (after : list Action) : list Action :=
  match events with
  | [] => after
  | event :: rest =>
      Fetch event ::
      if is_disconnected n then
        Poll true :: after
      else
        Poll false ::
        match event with
        | Progress event =>
            match render event with
            | inl e => [Raise e]
            | inr line => Yield line :: event_loop rest (S n) after
            end
        | _ => event_loop rest (S n) after
        end
  end.

(** Lines 80-93. *)
Definition after_loop (handler : Handler) : list Action :=
  AwaitResult ::
  match final_result handler with
  | inl e => [Raise e]
  | inr final_result =>
      let messages := res_messages final_result in
      let response := res_response final_result in
      let input_tokens := estimate_tokens_in_messages messages in
      let output_tokens := get_string_tokens response in
      let message :=
        "Input tokens: " +:+ str_of_Z input_tokens +:+
        ", output tokens: " +:+ str_of_Z output_tokens in
      match subscript stream_part_types "data" with
      | inl e => [Raise e]
      | inr stream_part_type =>
          [Yield (stream_part_type +:+ ":" +:+ message +:+ LF)]
      end
  end.

Definition event_generator (handler : Handler) : list Action :=
  event_loop (stream_events handler) 0 (after_loop handler).

(** The lines a run of the generator sends, in order. *)
Fixpoint yielded (trace : list Action) : list string :=
  match trace with
  | [] => []
  | Yield line :: rest => line :: yielded rest
  | _ :: rest => yielded rest
  end.

Record HTTPException := mkHTTPException {
  status_code : Z;
  detail : string;
}.

Definition HTTP_400_BAD_REQUEST : Z := 400.

Record StreamingResponse := mkStreamingResponse {
  body : list Action;
  media_type : string;
  headers : list (string * string);
}.

(** [l.pop()]: the last item and the list that remains. *)
Fixpoint pop {A} (l : list A) : option (A * list A) :=
  match l with
  | [] => None
  | [x] => Some (x, [])
  | x :: rest =>
      match pop rest with
      | Some (y, rest') => Some (y, x :: rest')
      | None => None
      end
  end.

Inductive Response :=
  | Rejected (e : HTTPException)
  | Crashed (e : Exc)
  | Streaming (r : StreamingResponse).

(** The outcome of [chat]: the calls it made to [chat_engine.run], in
    order, and what it returned or raised. *)
Record ChatOutcome := mkChatOutcome {
  engine_runs : list (string * list ChatMessage);
  response : Response;
}.

Definition chat (data : _ChatData) (chat_engine : ChatEngine) : ChatOutcome :=
  if decide (length (messages data) = 0%nat) then
    mkChatOutcome []
      (Rejected (mkHTTPException HTTP_400_BAD_REQUEST "No messages provided"))
  else
    match pop (messages data) with
    | None => mkChatOutcome [] (Crashed (IndexError "pop from empty list"))
    | Some (lastMessage, remaining) =>
        if decide (msg_role lastMessage <> USER) then
          mkChatOutcome []
            (Rejected (mkHTTPException HTTP_400_BAD_REQUEST
                         "Last message must be from user"))
        else
          let messages :=
            map (fun m => mkChatMessage (msg_role m) (msg_content m))
                remaining in
          let handler := run chat_engine (msg_content lastMessage) messages in
          mkChatOutcome [(msg_content lastMessage, messages)]
            (Streaming
               (mkStreamingResponse (event_generator handler)
                  "text/event-stream"
                  [("X-Experimental-Stream-Data", "true")]))
    end.

End Backend.

Arguments mkChatEngine {BaseIndex}.
Arguments index {BaseIndex}.
Arguments system_prompt {BaseIndex}.
Arguments top_k {BaseIndex}.
Arguments context_prompt {BaseIndex}.
Arguments ChatEngine_init {BaseIndex}.
Arguments setup {BaseIndex}.
Arguments retrieve {BaseIndex}.
Arguments post_process {BaseIndex}.
Arguments synthesize {BaseIndex}.
Arguments workflow {BaseIndex}.
Arguments run {BaseIndex}.
Arguments get_chat_engine {BaseIndex}.
Arguments chat {BaseIndex}.

(** ** Sample collaborators, for running the model on concrete inputs *)

Module Sample.

(** An index that returns its first [k] documents. *)
Definition aretrieve (idx : list NodeWithScore) (k : Z) (query : string)
    : Exc + list NodeWithScore :=
  inr (take (Z.to_nat k) idx).

(** A memory buffer without a token limit. *)
Definition memory_get (m : ChatMemoryBuffer) (query : string)
    : list ChatMessage :=
  chat_history m.

(** [str.format] for templates whose only braces are the two fields. *)
Fixpoint fill (context message template : string) (skip : nat) : string :=
  match template with
  | EmptyString => ""
  | String c rest =>
      match skip with
      | S k => fill context message rest k
      | O =>
          if String.prefix "{context}" template
          then context +:+ fill context message rest 8
          else if String.prefix "{message}" template
          then message +:+ fill context message rest 8
          else String c (fill context message rest 0)
      end
  end.

Definition str_format (template context message : string) : Exc + string :=
  inr (fill context message template 0).

(** A model that answers every request with the same three chunks. *)
Definition chunk (d acc : string) : ChatResponse :=
  mkChatResponse (mkChatMessage ASSISTANT acc) d.

Definition astream_chat (history : list ChatMessage) : Exc + ResponseGen :=
  inr (mkResponseGen
         [ chunk "The" "The";
           chunk " refund" "The refund";
           chunk " policy..." "The refund policy..." ]
         None).

(** A model whose stream ends at once. *)
Definition astream_nothing (history : list ChatMessage) : Exc + ResponseGen :=
  inr (mkResponseGen [] None).

(** A token counter that counts characters. *)
Definition get_string_tokens (s : string) : Z :=
  Z.of_nat (String.length s).

Definition estimate_tokens_in_messages (ms : list ChatMessage) : Z :=
  foldr (fun m acc => get_string_tokens (content m) + acc) 0 ms.

Definition docs : list NodeWithScore :=
  [ mkNode "Refunds within 30 days."; mkNode "Keep the receipt.";
    mkNode "Store credit after 30 days."; mkNode "No refunds on gift cards." ].

Definition engine (system_prompt : option string) : ChatEngine (list NodeWithScore) :=
  ChatEngine_init docs 3 system_prompt None.

(** A model whose whole answer comes in one chunk. *)
Definition astream_once (history : list ChatMessage) : Exc + ResponseGen :=
  inr (mkResponseGen [chunk "Thirty days." "Thirty days."] None).

(** The run of the refund question: three chunks, and one chunk. *)
Definition refund_run (system_prompt : option string) : Handler :=
  run aretrieve memory_get str_format astream_chat (engine system_prompt)
    "What is the refund policy?" [].

Definition short_run : Handler :=
  run aretrieve memory_get str_format astream_once (engine None)
    "What is the refund policy?" [].

(** The result a handler gives when awaited, for a run known to succeed. *)
Definition result_of (handler : Handler) : PipelineResult :=
  match final_result handler with
  | inr r => r
  | inl _ => mkPipelineResult "" [] "" []
  end.

(** A context in which [setup] has stored an empty history, and the
    event that [post_process] hands to [synthesize]. *)
Definition ready : Context :=
  mkContext (<["memory" := mkMemory []]> ∅) [] [].

Definition question : SynthesizeEvent :=
  mkSynthesizeEvent "What is the refund policy?" (take 3 docs).

(** The context turn that [synthesize] builds for [question]. *)
Definition context_turn : string :=
  fill (join (LF +:+ LF) (map get_content (take 3 docs)))
    "What is the refund policy?" CONTEXT_PROMPT 0.

(** Collaborators that fail: a retriever that is down, a template with
    an unknown field, a model that refuses the request, and a model whose
    stream breaks after two chunks. *)
Definition aretrieve_down (idx : list NodeWithScore) (k : Z) (query : string)
    : Exc + list NodeWithScore :=
  inl (CollaboratorError "index unavailable").

Definition format_unknown_field (template context message : string)
    : Exc + string :=
  inl (KeyError "topic").

Definition astream_refused (history : list ChatMessage) : Exc + ResponseGen :=
  inl (CollaboratorError "rate limited").

Definition astream_broken (history : list ChatMessage) : Exc + ResponseGen :=
  inr (mkResponseGen
         [ chunk "The" "The"; chunk " refund" "The refund" ]
         (Some (CollaboratorError "connection reset"))).

(** The request that asks the refund question as its only message, the
    stream of the three-chunk model and the history sent for it. *)
Definition refund_request : _ChatData :=
  mk_ChatData [mk_Message USER "What is the refund policy?"].

Definition three_chunks : ResponseGen :=
  mkResponseGen
    [ chunk "The" "The"; chunk " refund" "The refund";
      chunk " policy..." "The refund policy..." ]
    None.

Definition refund_history : list ChatMessage :=
  [mkChatMessage USER context_turn].

(** The runs of the refund question that fail. *)
Definition broken_run : Handler :=
  run aretrieve memory_get str_format astream_broken (engine None)
    "What is the refund policy?" [].

Definition empty_run : Handler :=
  run aretrieve memory_get str_format astream_nothing (engine None)
    "What is the refund policy?" [].

Definition never (n : nat) : bool := false.

(** The client is found gone at the third poll. *)
Definition after_two (n : nat) : bool := Nat.eqb n 2.

End Sample.

(** ** Vocabulary of the statements *)

Definition retrieving : ProgressEvent :=
  mkProgressEvent TData Loading "Retrieving relevant nodes...".

Definition retrieved (n : nat) : ProgressEvent :=
  mkProgressEvent TData Done
    ("Retrieved " +:+ str_of_nat n +:+ " relevant nodes for context.").

Definition synthesizing : ProgressEvent :=
  mkProgressEvent TData Loading "Synthesizing response...".

Definition stream_created : ProgressEvent :=
  mkProgressEvent TData Done "Finished creating response stream.".

Definition text_event (c : ChatResponse) : ProgressEvent :=
  mkProgressEvent TText Loading (delta c).

(** The context after [events] were written to its stream. *)
Definition wrote (ctx : Context) (events : list ProgressEvent) : Context :=
  mkContext (globals ctx) (streaming_queue ctx ++ events) (llm_requests ctx).

(** The context after one more request to the model. *)
Definition asked (ctx : Context) (history : list ChatMessage) : Context :=
  mkContext (globals ctx) (streaming_queue ctx) (llm_requests ctx ++ [history]).

Arguments wrote : simpl never.
Arguments asked : simpl never.

(** The history that [synthesize] passes to the model, given what the
    memory buffer holds and the formatted context turn. *)
Definition request_of {BaseIndex : Type}
    (memory_get : ChatMemoryBuffer -> string -> list ChatMessage)
    (self : ChatEngine BaseIndex) (memory : ChatMemoryBuffer)
    (query context_query : string) : list ChatMessage :=
  match system_prompt self with
  | Some (String a s) => [mkChatMessage SYSTEM (String a s)]
  | _ => []
  end ++ memory_get memory query ++ [mkChatMessage USER context_query].

(** The line, if any, that the transport sends for a stream event. *)
Definition event_line (event : StreamEvent) : option string :=
  match event with
  | Progress event =>
      match render event with
      | inr line => Some line
      | inl _ => None
      end
  | _ => None
  end.

Definition event_lines (events : list StreamEvent) : list string :=
  omap event_line events.

(** What the loop of the generator does on [events] while every poll
    finds the client connected. *)
Fixpoint drained (events : list StreamEvent) : list Action :=
  match events with
  | [] => []
  | event :: rest =>
      Fetch event :: Poll false ::
      match event_line event with
      | Some line => Yield line :: drained rest
      | None => drained rest
      end
  end.

(** A string that is one line: it ends with its only line feed. *)
Fixpoint contains_LF (s : string) : bool :=
  match s with
  | EmptyString => false
  | String c rest => Ascii.eqb c "010"%char || contains_LF rest
  end.

Definition one_line (s : string) : Prop :=
  exists body, s = body +:+ LF /\ contains_LF body = false.

(** The two shapes of line that [render] produces. *)
Definition text_line (payload : string) : string :=
  "0" +:+ ":" +:+ json_dumps (JStr payload) +:+ LF.

Definition data_line (event : ProgressEvent) : string :=
  "2" +:+ ":" +:+ json_dumps (JList [model_dump event]) +:+ LF.

(** No action of the loop itself awaits the run or raises. *)
Definition loop_action (a : Action) : Prop :=
  match a with
  | AwaitResult | Raise _ => False
  | _ => True
  end.

(** The value of a lower-case hexadecimal digit, by its code. *)
Definition hex_value (n : N) : N :=
  if (n <? 58)%N then n - 48 else n - 87.

(** Reads one escaped character off the front of a JSON string body. *)
Definition unescape_one (s : string) : option (ascii * string) :=
  match s with
  | EmptyString => None
  | String c r =>
      let n := N_of_ascii c in
      if (n =? 34)%N then None
      else if (n =? 92)%N then
        match r with
        | EmptyString => None
        | String d r2 =>
            let m := N_of_ascii d in
            if (m =? 34)%N then Some (ascii_of_N 34, r2)
            else if (m =? 92)%N then Some (ascii_of_N 92, r2)
            else if (m =? 110)%N then Some (ascii_of_N 10, r2)
            else if (m =? 114)%N then Some (ascii_of_N 13, r2)
            else if (m =? 116)%N then Some (ascii_of_N 9, r2)
            else if (m =? 98)%N then Some (ascii_of_N 8, r2)
            else if (m =? 102)%N then Some (ascii_of_N 12, r2)
            else if (m =? 117)%N then
              match r2 with
              | String _ (String _ (String h1 (String h2 r3))) =>
                  Some (ascii_of_N
                          (16 * hex_value (N_of_ascii h1)
                           + hex_value (N_of_ascii h2)), r3)
              | _ => None
              end
            else None
        end
      else Some (c, r)
  end.

(** What a data line holds before the escaped message. *)
Definition data_head (st : ProgressStatus) : string :=
  "2:[{" +:+ encode_basestring_ascii "type" +:+ ": "
  +:+ encode_basestring_ascii "data" +:+ ", "
  +:+ encode_basestring_ascii "status" +:+ ": "
  +:+ encode_basestring_ascii (status_str st) +:+ ", "
  +:+ encode_basestring_ascii "message" +:+ ": " +:+ DQ.

(** A string of printable ASCII characters only (codes 32 to 126). *)
Fixpoint printable (s : string) : bool :=
  match s with
  | EmptyString => true
  | String c rest =>
      (32 <=? N_of_ascii c)%N && (N_of_ascii c <=? 126)%N && printable rest
  end.

(** The events the loop took from the stream, in order. *)
Fixpoint fetched (trace : list Action) : list StreamEvent :=
  match trace with
  | [] => []
  | Fetch event :: rest => event :: fetched rest
  | _ :: rest => fetched rest
  end.

(** * Properties *)

(** ** How each step acts on the context *)

Lemma wrote_wrote ctx xs ys : wrote (wrote ctx xs) ys = wrote ctx (xs ++ ys).
Proof. unfold wrote; simpl. by rewrite <- (assoc_L (++)). Qed.

Lemma wrote_asked ctx h xs : wrote (asked ctx h) xs = asked (wrote ctx xs) h.
Proof. reflexivity. Qed.

Lemma wrote_nil ctx : wrote ctx [] = ctx.
Proof. destruct ctx; unfold wrote; simpl. by rewrite (right_id_L [] (++)). Qed.

Lemma globals_wrote ctx xs : globals (wrote ctx xs) = globals ctx.
Proof. reflexivity. Qed.

Lemma bind_write {A} ev (k : Step A) ctx :
  (write_event_to_stream ev >> k) ctx = k (wrote ctx [ev]).
Proof. reflexivity. Qed.

Lemma bind_log {A} history (k : Step A) ctx :
  (log_llm_request history >> k) ctx = k (asked ctx history).
Proof. reflexivity. Qed.

Lemma bind_await {A B} (r : Exc + A) (k : A -> Step B) ctx :
  (let! a := await r in k a) ctx =
  match r with
  | inl e => (inl e, ctx)
  | inr a => k a ctx
  end.
Proof. by destruct r. Qed.

Lemma bind_ctx_get {A} key (k : ChatMemoryBuffer -> Step A) ctx :
  (let! v := ctx_get key in k v) ctx =
  match globals ctx !! key with
  | Some v => k v ctx
  | None =>
      (inl (ValueError ("Key '" +:+ key +:+ "' not found in Context")), ctx)
  end.
Proof. unfold bind, ctx_get. by destruct (globals ctx !! key). Qed.

Lemma write_event_to_stream_eq ev ctx :
  write_event_to_stream ev ctx = (inr tt, wrote ctx [ev]).
Proof. reflexivity. Qed.

Section StepFacts.

Context {BaseIndex : Type}.
Variable aretrieve : BaseIndex -> Z -> string -> Exc + list NodeWithScore.
Variable memory_get : ChatMemoryBuffer -> string -> list ChatMessage.
Variable str_format : string -> string -> string -> Exc + string.
Variable astream_chat : list ChatMessage -> Exc + ResponseGen.

Lemma setup_present (self : ChatEngine BaseIndex) q ms ctx :
  setup self (mkStartEvent (Some q) (Some ms)) ctx =
  (inr (mkRetrieveEvent q),
   mkContext (<["memory" := mkMemory ms]> (globals ctx))
     (streaming_queue ctx) (llm_requests ctx)).
Proof. reflexivity. Qed.

Lemma setup_missing (self : ChatEngine BaseIndex) ev ctx :
  start_query ev = None \/ start_messages ev = None ->
  setup self ev ctx = (inl (ValueError "Query and messages are required!"), ctx).
Proof.
  destruct ev as [[q|] [ms|]]; simpl; intros [H|H]; congruence || reflexivity.
Qed.

Lemma retrieve_eq (self : ChatEngine BaseIndex) ev ctx :
  retrieve aretrieve self ev ctx =
  match aretrieve (index self) (top_k self) (re_query ev) with
  | inl e => (inl e, wrote ctx [retrieving])
  | inr nodes =>
      (inr (mkPostProcessEvent (re_query ev) nodes),
       wrote ctx [retrieving; retrieved (length nodes)])
  end.
Proof.
  unfold retrieve, bind. rewrite write_event_to_stream_eq.
  destruct (aretrieve _ _ _) as [e|nodes]; simpl; [reflexivity|].
  unfold ret, wrote; simpl. by rewrite <- (assoc_L (++)).
Qed.

Lemma stream_chunks_eq chunks chunk ctx :
  stream_chunks chunks chunk ctx =
  (inr (from_option Some chunk (last chunks)),
   wrote ctx (map text_event chunks)).
Proof.
  revert chunk ctx. induction chunks as [|c rest IH]; intros chunk ctx.
  - simpl. by rewrite wrote_nil.
  - cbn [stream_chunks]. unfold bind. rewrite write_event_to_stream_eq.
    rewrite IH, wrote_wrote. simpl map. f_equal.
    destruct rest as [|c' rest']; [reflexivity|].
    change (last (c :: c' :: rest')) with (last (c' :: rest')).
    destruct (last (c' :: rest')) eqn:E; [reflexivity|].
    by apply last_None in E.
Qed.

Lemma synthesize_eq (self : ChatEngine BaseIndex) ev ctx :
  synthesize memory_get str_format astream_chat self ev ctx =
  match globals ctx !! "memory" with
  | None =>
      (inl (ValueError "Key 'memory' not found in Context"),
       wrote ctx [synthesizing])
  | Some memory =>
      match str_format (context_prompt self)
              (join (LF +:+ LF) (map get_content (sy_nodes ev)))
              (sy_query ev) with
      | inl e => (inl e, wrote ctx [synthesizing])
      | inr context_query =>
          let history :=
            request_of memory_get self memory (sy_query ev) context_query in
          match astream_chat history with
          | inl e => (inl e, asked (wrote ctx [synthesizing]) history)
          | inr gen =>
              let ctx' :=
                asked (wrote ctx ([synthesizing; stream_created]
                                  ++ map text_event (gen_chunks gen)))
                      history in
              match gen_failure gen with
              | Some e => (inl e, ctx')
              | None =>
                  match last (gen_chunks gen) with
                  | None => (inl (UnboundLocalError "chunk"), ctx')
                  | Some chunk =>
                      (inr (mkPipelineResult (sy_query ev) history
                              (content (chunk_message chunk)) (sy_nodes ev)),
                       ctx')
                  end
              end
          end
      end
  end.
Proof.
  unfold synthesize. rewrite bind_write, bind_ctx_get, globals_wrote.
  destruct (globals ctx !! "memory") as [memory|]; [|reflexivity].
  rewrite bind_await.
  destruct (str_format _ _ _) as [e|context_query]; [reflexivity|].
  replace (match system_prompt self with
           | Some prompt => _ | None => _ end)
    with (request_of memory_get self memory (sy_query ev) context_query)
    by (unfold request_of; destruct (system_prompt self) as [[|a s]|];
        reflexivity).
  cbv zeta.
  generalize (request_of memory_get self memory (sy_query ev) context_query).
  intros history.
  rewrite bind_log, bind_await.
  destruct (astream_chat history) as [e|gen]; [reflexivity|].
  rewrite bind_write. unfold bind at 1. rewrite stream_chunks_eq.
  rewrite !wrote_asked, !wrote_wrote. simpl app.
  destruct (gen_failure gen) as [e|]; [reflexivity|].
  destruct (last (gen_chunks gen)) as [chunk|]; reflexivity.
Qed.

(** The whole run: [setup] stores the memory buffer, [retrieve] writes
    its two events, [post_process] passes the nodes on. *)
Lemma workflow_eq (self : ChatEngine BaseIndex) q ms ctx :
  workflow aretrieve memory_get str_format astream_chat self
    (mkStartEvent (Some q) (Some ms)) ctx =
  let ctx1 := mkContext (<["memory" := mkMemory ms]> (globals ctx))
                (streaming_queue ctx) (llm_requests ctx) in
  match aretrieve (index self) (top_k self) q with
  | inl e => (inl e, wrote ctx1 [retrieving])
  | inr nodes =>
      synthesize memory_get str_format astream_chat self
        (mkSynthesizeEvent q nodes)
        (wrote ctx1 [retrieving; retrieved (length nodes)])
  end.
Proof.
  unfold workflow. unfold bind at 1. rewrite setup_present.
  unfold bind at 1. rewrite retrieve_eq. simpl re_query.
  destruct (aretrieve _ _ _) as [e|nodes]; reflexivity.
Qed.

Lemma workflow_missing (self : ChatEngine BaseIndex) ev ctx :
  start_query ev = None \/ start_messages ev = None ->
  workflow aretrieve memory_get str_format astream_chat self ev ctx =
  (inl (ValueError "Query and messages are required!"), ctx).
Proof.
  intros H. unfold workflow. unfold bind at 1. by rewrite setup_missing.
Qed.

(** The events of a run, in the order written, are an initial segment of
    the four stage events followed by one text event per chunk. *)
Lemma workflow_queue (self : ChatEngine BaseIndex) ev :
  exists n chunks,
    streaming_queue
      (snd (workflow aretrieve memory_get str_format astream_chat self ev
              new_context))
    `prefix_of`
    [retrieving; retrieved n; synthesizing; stream_created]
      ++ map text_event chunks.
Proof.
  destruct ev as [[q|] [ms|]];
    try (rewrite workflow_missing by (simpl; auto);
         exists 0%nat, []; apply prefix_nil).
  rewrite workflow_eq. cbv zeta.
  destruct (aretrieve _ _ _) as [e|nodes].
  { exists 0%nat, []. by exists [retrieved 0; synthesizing; stream_created]. }
  exists (length nodes). rewrite synthesize_eq.
  rewrite globals_wrote. simpl globals. rewrite lookup_insert_eq.
  destruct (str_format _ _ _) as [e|cq].
  { exists []. by exists [stream_created]. }
  cbv zeta. destruct (astream_chat _) as [e|gen].
  { exists []. by exists [stream_created]. }
  exists (gen_chunks gen).
  destruct (gen_failure gen); [|destruct (last _)]; simpl; reflexivity.
Qed.

(** A run that returns a result wrote all four stage events and one text
    event per chunk of a stream that was not empty. *)
Lemma workflow_complete (self : ChatEngine BaseIndex) ev r :
  fst (workflow aretrieve memory_get str_format astream_chat self ev
         new_context) = inr r ->
  exists n chunk chunks,
    streaming_queue
      (snd (workflow aretrieve memory_get str_format astream_chat self ev
              new_context))
    = [retrieving; retrieved n; synthesizing; stream_created]
        ++ map text_event (chunks ++ [chunk]).
Proof.
  destruct ev as [[q|] [ms|]];
    try (rewrite workflow_missing by (simpl; auto); discriminate).
  rewrite workflow_eq. cbv zeta.
  destruct (aretrieve _ _ _) as [e|nodes]; [discriminate|].
  rewrite synthesize_eq.
  rewrite globals_wrote. simpl globals. rewrite lookup_insert_eq.
  destruct (str_format _ _ _) as [e|cq]; [discriminate|].
  cbv zeta. destruct (astream_chat _) as [e|gen]; [discriminate|].
  destruct (gen_failure gen); [discriminate|].
  destruct (last (gen_chunks gen)) as [chunk|] eqn:Hlast; [|discriminate].
  intros _. apply last_Some in Hlast as [chunks ->].
  by exists (length nodes), chunk, chunks.
Qed.

Lemma snoc_neq {A} (l : list A) x : l <> l ++ [x].
Proof.
  intros H. apply (f_equal length) in H. rewrite length_app in H.
  simpl in H. lia.
Qed.

End StepFacts.

(** ** The engine built from the environment *)

(** The engine's system prompt is whatever [SYSTEM_PROMPT] holds, be it
    unset, empty or not; an unset or empty [CONTEXT_PROMPT] gives the
    default template, and an unset [TOP_K] gives 3. *)
Lemma get_chat_engine_reads_environment {BaseIndex : Type}
    (get_index : BaseIndex) (py_int : string -> Exc + Z)
    (environ : gmap string string) (self : ChatEngine BaseIndex) :
  get_chat_engine get_index py_int environ = inr self ->
  index self = get_index /\
  system_prompt self = environ !! "SYSTEM_PROMPT" /\
  context_prompt self = py_or (environ !! "CONTEXT_PROMPT") CONTEXT_PROMPT /\
  (environ !! "TOP_K" = None -> top_k self = 3).
Proof.
  unfold get_chat_engine. destruct (environ !! "TOP_K") as [s|].
  - destruct (py_int s); [discriminate|]. intros [= <-]. by repeat split.
  - intros [= <-]. by repeat split.
Qed.

(** ** The stream delivered to the transport *)

Lemma text_events_are_text chunks :
  Forall (fun e => type e = TText /\ status e = Loading)
         (map text_event chunks).
Proof. induction chunks; constructor; auto. Qed.

Lemma stream_lookup_progress (q : list ProgressEvent) i e :
  (map Progress q ++ [Stop]) !! i = Some (Progress e) <-> q !! i = Some e.
Proof.
  revert i. induction q as [|x q IH]; intros i.
  - destruct i as [|[|i]]; simpl; split; intros H; discriminate H.
  - destruct i as [|i]; simpl; [|apply IH].
    split; intros H; by simplify_eq.
Qed.

(** In an initial segment of the run's events: what lies at each place. *)
Lemma segment_places q n chunks i e :
  q `prefix_of`
    [retrieving; retrieved n; synthesizing; stream_created]
      ++ map text_event chunks ->
  q !! i = Some e ->
  (i = 0%nat /\ e = retrieving) \/ (i = 1%nat /\ e = retrieved n) \/
  (i = 2%nat /\ e = synthesizing) \/ (i = 3%nat /\ e = stream_created) \/
  ((4 <= i)%nat /\ type e = TText /\ status e = Loading).
Proof.
  intros Hpre Hi. apply (prefix_lookup_Some _ _ _ _ Hi) in Hpre.
  destruct i as [|[|[|[|i]]]]; simpl in Hpre; simplify_eq; auto 10.
  do 4 right. split; [lia|].
  pose proof (text_events_are_text chunks) as Hall.
  rewrite Forall_lookup in Hall. by apply (Hall i).
Qed.

Lemma segment_before q n chunks i j e :
  q `prefix_of`
    [retrieving; retrieved n; synthesizing; stream_created]
      ++ map text_event chunks ->
  q !! i = Some e -> (j < i)%nat ->
  q !! j = ([retrieving; retrieved n; synthesizing; stream_created]
              ++ map text_event chunks) !! j.
Proof.
  intros Hpre Hi Hj. apply prefix_lookup_lt; [|done].
  apply lookup_lt_Some in Hi. lia.
Qed.

Section Claims.

Context {BaseIndex : Type}.
Variable aretrieve : BaseIndex -> Z -> string -> Exc + list NodeWithScore.
Variable memory_get : ChatMemoryBuffer -> string -> list ChatMessage.
Variable str_format : string -> string -> string -> Exc + string.
Variable astream_chat : list ChatMessage -> Exc + ResponseGen.

Local Abbreviation workflow' := (workflow aretrieve memory_get str_format astream_chat).
Local Abbreviation synthesize' := (synthesize memory_get str_format astream_chat).
Local Abbreviation run' := (run aretrieve memory_get str_format astream_chat).

(** C3.  With a query and a message history both present, [setup] succeeds
    and returns a [RetrieveEvent] carrying exactly that query (and stores
    the history as the run's memory, writing no event).  With either one
    missing it raises the input error, leaves the context as it was, and
    the run as a whole ends in that error with an empty event stream. *)
Theorem setup_validates_query_and_messages (self : ChatEngine BaseIndex) :
  (forall query messages ctx,
     exists ctx',
       setup self (mkStartEvent (Some query) (Some messages)) ctx
         = (inr (mkRetrieveEvent query), ctx') /\
       globals ctx' !! "memory" = Some (mkMemory messages) /\
       streaming_queue ctx' = streaming_queue ctx) /\
  (forall ev ctx,
     start_query ev = None \/ start_messages ev = None ->
     setup self ev ctx
       = (inl (ValueError "Query and messages are required!"), ctx) /\
     workflow' self ev new_context
       = (inl (ValueError "Query and messages are required!"), new_context) /\
     streaming_queue (snd (workflow' self ev new_context)) = []).
Proof.
  split.
  - intros query messages ctx. eexists. rewrite setup_present.
    split; [reflexivity|]. simpl. by rewrite lookup_insert_eq.
  - intros ev ctx H. rewrite setup_missing, workflow_missing by done. done.
Qed.

(** C6.  In the event stream of every run, a retrieval [done] event is
    preceded by the retrieval [loading] event, and every text chunk event
    is preceded by the synthesis [loading] event and, after it, the
    synthesis [done] event. *)
Theorem stage_events_precede_text_chunks (self : ChatEngine BaseIndex)
    (query : string) (messages : list ChatMessage) :
  let events := stream_events (run' self query messages) in
  (forall i n,
     events !! i = Some (Progress (retrieved n)) ->
     exists j, (j < i)%nat /\ events !! j = Some (Progress retrieving)) /\
  (forall i e,
     events !! i = Some (Progress e) -> type e = TText ->
     exists j k,
       (j < k)%nat /\ (k < i)%nat /\
       events !! j = Some (Progress synthesizing) /\
       events !! k = Some (Progress stream_created)) /\
  (forall r,
     final_result (run' self query messages) = inr r ->
     exists n chunk chunks,
       events =
       map Progress
         ([retrieving; retrieved n; synthesizing; stream_created]
            ++ map text_event (chunks ++ [chunk]))
       ++ [Stop]).
Proof.
  cbv zeta. unfold run. cbn [stream_events].
  destruct (workflow_queue aretrieve memory_get str_format astream_chat self
              (mkStartEvent (Some query) (Some messages)))
    as (n & chunks & Hpre).
  set (q := streaming_queue _) in *. split; [|split].
  - intros i m Hi. apply stream_lookup_progress in Hi.
    destruct (segment_places _ _ _ _ _ Hpre Hi)
      as [[_ H]|[[-> _]|[[_ H]|[[_ H]|(_ & H & _)]]]]; try discriminate H.
    exists 0%nat. split; [lia|]. apply stream_lookup_progress.
    by rewrite (segment_before _ _ _ _ 0 _ Hpre Hi) by lia.
  - intros i e Hi Ht. apply stream_lookup_progress in Hi.
    destruct (segment_places _ _ _ _ _ Hpre Hi)
      as [[_ ->]|[[_ ->]|[[_ ->]|[[_ ->]|(Hge & _)]]]]; try discriminate Ht.
    exists 2%nat, 3%nat. repeat split; try lia.
    + apply stream_lookup_progress.
      by rewrite (segment_before _ _ _ _ 2 _ Hpre Hi) by lia.
    + apply stream_lookup_progress.
      by rewrite (segment_before _ _ _ _ 3 _ Hpre Hi) by lia.
  - intros r Hr. apply workflow_complete in Hr as (m & chunk & chunks' & Hq).
    exists m, chunk, chunks'. unfold q. by rewrite Hq.
Qed.

(** C10.  Every progress event of a run whose type is text has status
    loading, and every progress event whose status is done has type data. *)
Theorem text_events_load_and_done_events_are_data
    (self : ChatEngine BaseIndex) (ev : StartEvent) :
  Forall (fun e => (type e = TText -> status e = Loading) /\
                   (status e = Done -> type e = TData))
    (streaming_queue (snd (workflow' self ev new_context))).
Proof.
  destruct (workflow_queue aretrieve memory_get str_format astream_chat self ev)
    as (n & chunks & Hpre).
  apply Forall_lookup. intros i e Hi.
  destruct (segment_places _ _ _ _ _ Hpre Hi)
    as [[_ ->]|[[_ ->]|[[_ ->]|[[_ ->]|(_ & Ht & Hs)]]]];
    split; intros H; try done; congruence.
Qed.

(** C7.  When [synthesize] has asked the model and the stream it got
    ends without failure: with at least one chunk the result is built and
    its response text is the message content of the last chunk; with no
    chunk the read of the loop variable [chunk] fails as unbound. *)
Theorem result_reads_the_last_chunk (self : ChatEngine BaseIndex)
    (ev : SynthesizeEvent) (ctx : Context) (history : list ChatMessage)
    (gen : ResponseGen) :
  llm_requests (snd (synthesize' self ev ctx)) = llm_requests ctx ++ [history] ->
  astream_chat history = inr gen ->
  gen_failure gen = None ->
  (gen_chunks gen <> [] ->
   exists chunk r,
     last (gen_chunks gen) = Some chunk /\
     fst (synthesize' self ev ctx) = inr r /\
     res_response r = content (chunk_message chunk)) /\
  (gen_chunks gen = [] ->
   fst (synthesize' self ev ctx) = inl (UnboundLocalError "chunk")).
Proof.
  rewrite synthesize_eq.
  destruct (globals ctx !! "memory") as [memory|];
    [|intros H; by apply snoc_neq in H].
  destruct (str_format _ _ _) as [e|cq]; [intros H; by apply snoc_neq in H|].
  cbv zeta. set (h := request_of _ _ _ _ _).
  destruct (astream_chat h) as [e|gen'] eqn:Hgen.
  - intros H Hh. apply app_inv_head in H. simplify_eq. congruence.
  - intros H Hh Hf.
    assert (h = history) as <-.
    { destruct (gen_failure gen'); [|destruct (last _)];
        apply app_inv_head in H; by simplify_eq. }
    rewrite Hgen in Hh. simplify_eq. rewrite Hf. split.
    + intros Hne. destruct (last (gen_chunks gen)) as [chunk|] eqn:Hl.
      * by exists chunk, (mkPipelineResult (sy_query ev) h
                             (content (chunk_message chunk)) (sy_nodes ev)).
      * by apply last_None in Hl.
    + by intros ->.
Qed.

(** C2, as the code has it.  The result of a run of [synthesize] that
    reaches the end of the stream holds, as its message history, the very
    list that was sent to the model: the system message when the system
    prompt is non-empty, then the history read from the memory buffer, then
    the context turn as its last message; the assistant's reply is not
    appended to it.  The response text is the message content of the last
    chunk, and the source nodes and the query are those of the event. *)
Theorem result_holds_request_history_response_and_nodes
    (self : ChatEngine BaseIndex) (ev : SynthesizeEvent) (ctx : Context)
    (r : PipelineResult) :
  fst (synthesize' self ev ctx) = inr r ->
  exists memory context_query gen chunk,
    globals ctx !! "memory" = Some memory /\
    str_format (context_prompt self)
      (join (LF +:+ LF) (map get_content (sy_nodes ev))) (sy_query ev)
      = inr context_query /\
    res_messages r =
      (if truthy (system_prompt self)
       then [mkChatMessage SYSTEM (default "" (system_prompt self))]
       else [])
      ++ memory_get memory (sy_query ev)
      ++ [mkChatMessage USER context_query] /\
    last (res_messages r) = Some (mkChatMessage USER context_query) /\
    llm_requests (snd (synthesize' self ev ctx))
      = llm_requests ctx ++ [res_messages r] /\
    astream_chat (res_messages r) = inr gen /\
    last (gen_chunks gen) = Some chunk /\
    res_response r = content (chunk_message chunk) /\
    res_source_nodes r = sy_nodes ev /\
    res_query r = sy_query ev.
Proof.
  rewrite synthesize_eq.
  destruct (globals ctx !! "memory") as [memory|]; [|discriminate].
  destruct (str_format _ _ _) as [e|cq]; [discriminate|].
  cbv zeta. set (h := request_of _ _ _ _ _).
  destruct (astream_chat h) as [e|gen] eqn:Hgen; [discriminate|].
  destruct (gen_failure gen); [discriminate|].
  destruct (last (gen_chunks gen)) as [chunk|] eqn:Hl; [|discriminate].
  simpl. intros [= <-]. exists memory, cq, gen, chunk. simpl.
  assert (Hh : h = (if truthy (system_prompt self)
                    then [mkChatMessage SYSTEM (default "" (system_prompt self))]
                    else [])
                   ++ memory_get memory (sy_query ev)
                   ++ [mkChatMessage USER cq]).
  { unfold h, request_of. by destruct (system_prompt self) as [[|a s]|]. }
  repeat split; try done.
  rewrite Hh, !(assoc_L (++)). apply last_snoc.
Qed.

(** C9, as the code has it.  The history sent to the model starts with a
    prepended system message exactly when the engine's system prompt is a
    non-empty string; when the prompt is absent or empty, the history is
    the memory buffer's history followed by the context turn, unchanged. *)
Theorem system_message_iff_nonempty_prompt (self : ChatEngine BaseIndex)
    (ev : SynthesizeEvent) (ctx : Context) (memory : ChatMemoryBuffer)
    (context_query : string) :
  globals ctx !! "memory" = Some memory ->
  str_format (context_prompt self)
    (join (LF +:+ LF) (map get_content (sy_nodes ev))) (sy_query ev)
    = inr context_query ->
  let base :=
    memory_get memory (sy_query ev) ++ [mkChatMessage USER context_query] in
  exists history,
    llm_requests (snd (synthesize' self ev ctx))
      = llm_requests ctx ++ [history] /\
    ((exists prompt,
        system_prompt self = Some prompt /\ prompt <> "" /\
        history = mkChatMessage SYSTEM prompt :: base) \/
     ((system_prompt self = None \/ system_prompt self = Some "") /\
      history = base)).
Proof.
  intros Hm Hf base. rewrite synthesize_eq, Hm, Hf. cbv zeta.
  exists (request_of memory_get self memory (sy_query ev) context_query).
  split.
  - destruct (astream_chat _) as [e|gen]; [done|].
    destruct (gen_failure gen); [|destruct (last _)]; done.
  - unfold request_of.
    destruct (system_prompt self) as [[|a s]|]; [right|left|right]; eauto.
Qed.

End Claims.

(** ** The transport *)

Lemma render_total event : exists line, render event = inr line.
Proof. destruct event as [[] st msg]; eexists; reflexivity. Qed.

Lemma append_assoc (a b c : string) : (a +:+ b) +:+ c = a +:+ (b +:+ c).
Proof.
  induction a as [|x a IH]; [reflexivity|].
  change (String x ((a +:+ b) +:+ c) = String x (a +:+ (b +:+ c))).
  by rewrite IH.
Qed.

Lemma contains_LF_app a b :
  contains_LF (a +:+ b) = contains_LF a || contains_LF b.
Proof.
  induction a as [|x a IH]; [reflexivity|].
  change (Ascii.eqb x "010" || contains_LF (a +:+ b)
          = Ascii.eqb x "010" || contains_LF a || contains_LF b).
  by rewrite IH, orb_assoc.
Qed.

(** [json.dumps] escapes every line feed of a string. *)
Lemma escape_char_no_LF c : contains_LF (escape_char c) = false.
Proof. destruct c as [[] [] [] [] [] [] [] []]; reflexivity. Qed.

Lemma escape_chars_no_LF s : contains_LF (escape_chars s) = false.
Proof.
  induction s as [|c s IH]; [reflexivity|].
  change (contains_LF (escape_char c +:+ escape_chars s) = false).
  by rewrite contains_LF_app, escape_char_no_LF, IH.
Qed.

Lemma encode_no_LF s : contains_LF (encode_basestring_ascii s) = false.
Proof.
  unfold encode_basestring_ascii.
  by rewrite !contains_LF_app, escape_chars_no_LF.
Qed.

Lemma str_of_uint_no_LF d : contains_LF (NilEmpty.string_of_uint d) = false.
Proof. induction d; simpl; auto. Qed.

Lemma str_of_Z_no_LF z : contains_LF (str_of_Z z) = false.
Proof.
  unfold str_of_Z. destruct (Z.to_int z); simpl; apply str_of_uint_no_LF.
Qed.

Lemma render_one_line event line : render event = inr line -> one_line line.
Proof.
  destruct event as [[] st msg]; intros [= <-].
  - exists ("2" +:+ ":" +:+
            json_dumps (JList [model_dump (mkProgressEvent TData st msg)])).
    split; [by rewrite !append_assoc|].
    destruct st; cbn -[encode_basestring_ascii];
      rewrite !contains_LF_app, !encode_no_LF; reflexivity.
  - exists ("0" +:+ ":" +:+ json_dumps (JStr msg)).
    split; [by rewrite !append_assoc|].
    cbn -[encode_basestring_ascii]. apply encode_no_LF.
Qed.

Lemma yielded_app t1 t2 : yielded (t1 ++ t2) = yielded t1 ++ yielded t2.
Proof.
  induction t1 as [|a t1 IH]; [reflexivity|].
  destruct a; simpl; by rewrite ?IH.
Qed.

Lemma yielded_drained events : yielded (drained events) = event_lines events.
Proof.
  induction events as [|ev rest IH]; [reflexivity|].
  unfold event_lines in *. simpl.
  destruct (event_line ev); simpl; by rewrite IH.
Qed.

Lemma fetched_drained events : fetched (drained events) = events.
Proof.
  induction events as [|ev rest IH]; [reflexivity|].
  simpl. destruct (event_line ev); simpl; by rewrite IH.
Qed.

Lemma drained_never_awaits events :
  Forall (fun a => a <> AwaitResult) (drained events).
Proof.
  induction events as [|ev rest IH]; [constructor|].
  simpl. destruct (event_line ev); repeat (constructor; [done|]); done.
Qed.

Section Transport.

Variable is_disconnected : nat -> bool.
Variable estimate_tokens_in_messages : list ChatMessage -> Z.
Variable get_string_tokens : string -> Z.

Local Abbreviation event_loop' := (event_loop is_disconnected).
Local Abbreviation event_generator' :=
  (event_generator is_disconnected estimate_tokens_in_messages
     get_string_tokens).

(** While the client stays connected the loop drains the whole stream and
    then goes on to the code below it. *)
Lemma event_loop_connected events n after :
  (forall i, (i < length events)%nat -> is_disconnected (n + i) = false) ->
  event_loop' events n after = drained events ++ after.
Proof.
  revert n. induction events as [|ev rest IH]; intros n Hc; [reflexivity|].
  cbn [event_loop drained].
  rewrite <- (Nat.add_0_r n) at 1. rewrite Hc by (simpl; lia).
  assert (Hrest : event_loop' rest (S n) after = drained rest ++ after).
  { apply IH. intros i Hi. replace (S n + i)%nat with (n + S i)%nat by lia.
    apply Hc. simpl. lia. }
  destruct ev as [e| |name]; simpl event_line; try by rewrite Hrest.
  destruct (render_total e) as [line ->]. by rewrite Hrest.
Qed.

(** Whether or not the client is found gone, the loop ends by running the
    code below it: [break] leaves the loop, not the generator. *)
Lemma event_loop_reaches_after events n after :
  exists loop,
    event_loop' events n after = loop ++ after /\
    fetched loop `prefix_of` events.
Proof.
  revert n. induction events as [|ev rest IH]; intros n.
  { by exists []. }
  cbn [event_loop]. destruct (is_disconnected n).
  { exists [Fetch ev; Poll true]. split; [reflexivity|]. by exists rest. }
  destruct (IH (S n)) as (loop & Hloop & Hpre).
  destruct ev as [e| |name].
  - destruct (render_total e) as [line ->].
    exists (Fetch (Progress e) :: Poll false :: Yield line :: loop).
    rewrite Hloop. split; [reflexivity|]. simpl. by apply prefix_cons.
  - exists (Fetch Stop :: Poll false :: loop).
    rewrite Hloop. split; [reflexivity|]. simpl. by apply prefix_cons.
  - exists (Fetch (Other name) :: Poll false :: loop).
    rewrite Hloop. split; [reflexivity|]. simpl. by apply prefix_cons.
Qed.

(** C5.  A text event is sent as the text type-code, a colon, the JSON
    string of its message and a line feed; any other progress event as its
    type-code, a colon, the JSON array holding the one record dumped from
    the event, and a line feed; either way rendering succeeds and what is
    sent is one line.  An event that is no progress event is taken from the
    stream and nothing is sent for it. *)
Theorem progress_events_render_as_protocol_lines :
  (forall event,
     type event = TText ->
     exists code,
       stream_part_types !! "text" = Some code /\
       render event
         = inr (code +:+ ":" +:+ json_dumps (JStr (message event)) +:+ LF)) /\
  (forall event,
     type event <> TText ->
     exists code,
       stream_part_types !! type_str (type event) = Some code /\
       model_dump event
         = JDict [ ("type", JStr (type_str (type event)));
                   ("status", JStr (status_str (status event)));
                   ("message", JStr (message event)) ] /\
       render event
         = inr (code +:+ ":" +:+ json_dumps (JList [model_dump event])
                +:+ LF)) /\
  (forall event, exists line, render event = inr line /\ one_line line) /\
  (forall event rest n after,
     (forall e, event <> Progress e) ->
     is_disconnected n = false ->
     event_loop' (event :: rest) n after
       = Fetch event :: Poll false :: event_loop' rest (S n) after /\
     yielded (event_loop' (event :: rest) n after)
       = yielded (event_loop' rest (S n) after)).
Proof.
  split; [|split; [|split]].
  - intros [[] st msg] Ht; [discriminate|]. by exists "0".
  - intros [[] st msg] Ht; [|done]. by exists "2".
  - intros event. destruct (render_total event) as [line Hline].
    exists line. split; [exact Hline|]. by apply (render_one_line event).
  - intros event rest n after Hnp Hc. cbn [event_loop]. rewrite Hc.
    destruct event as [e| |name]; [by destruct (Hnp e)|done|done].
Qed.

(** C8.  When the run has a result and no poll finds the client gone, the
    generator drains the stream, then awaits the result once and sends one
    last line: the data type-code, a colon, and the plain summary text with
    the token estimate of the result's message history and the token count
    of its response text. *)
Theorem summary_line_follows_the_events (handler : Handler)
    (final : PipelineResult) :
  final_result handler = inr final ->
  (forall n, (n < length (stream_events handler))%nat ->
             is_disconnected n = false) ->
  exists code loop,
    stream_part_types !! "data" = Some code /\
    let summary :=
      code +:+ ":" +:+
      ("Input tokens: "
         +:+ str_of_Z (estimate_tokens_in_messages (res_messages final))
         +:+ ", output tokens: "
         +:+ str_of_Z (get_string_tokens (res_response final)))
      +:+ LF in
    one_line summary /\
    event_generator' handler = loop ++ [AwaitResult; Yield summary] /\
    fetched loop = stream_events handler /\
    yielded loop = event_lines (stream_events handler) /\
    Forall (fun a => a <> AwaitResult) loop /\
    yielded (event_generator' handler)
      = event_lines (stream_events handler) ++ [summary].
Proof.
  intros Hres Hc. exists "2", (drained (stream_events handler)).
  split; [reflexivity|]. cbv zeta.
  unfold event_generator. rewrite event_loop_connected by exact Hc.
  unfold after_loop. rewrite Hres.
  change (subscript stream_part_types "data") with (@inr Exc string "2").
  cbv zeta.
  split.
  { eexists. split; [by rewrite <- !append_assoc|].
    rewrite !contains_LF_app, !str_of_Z_no_LF. reflexivity. }
  split; [reflexivity|].
  split; [apply fetched_drained|].
  split; [apply yielded_drained|].
  split; [apply drained_never_awaits|].
  by rewrite yielded_app, yielded_drained.
Qed.

End Transport.

(** ** The endpoint *)

Lemma pop_snoc {A} (l : list A) x : pop (l ++ [x]) = Some (x, l).
Proof.
  induction l as [|y l IH]; [reflexivity|].
  change ((y :: l) ++ [x]) with (y :: (l ++ [x])).
  destruct (l ++ [x]) as [|z l'] eqn:E.
  { by destruct l. }
  cbn [pop]. cbn [pop] in IH. by rewrite IH.
Qed.

Lemma pop_last {A} (l : list A) x :
  last l = Some x -> exists rest, l = rest ++ [x] /\ pop l = Some (x, rest).
Proof.
  intros H. apply last_Some in H as [rest ->].
  exists rest. split; [reflexivity|apply pop_snoc].
Qed.

Section Endpoint.

Context {BaseIndex : Type}.
Variable aretrieve : BaseIndex -> Z -> string -> Exc + list NodeWithScore.
Variable memory_get : ChatMemoryBuffer -> string -> list ChatMessage.
Variable str_format : string -> string -> string -> Exc + string.
Variable astream_chat : list ChatMessage -> Exc + ResponseGen.
Variable is_disconnected : nat -> bool.
Variable estimate_tokens_in_messages : list ChatMessage -> Z.
Variable get_string_tokens : string -> Z.

Local Abbreviation chat' :=
  (chat aretrieve memory_get str_format astream_chat is_disconnected
     estimate_tokens_in_messages get_string_tokens).

(** A request whose last message is from the user starts one run, with
    that message as the query and the messages before it as the history. *)
Lemma chat_starts_one_run (data : _ChatData) (engine : ChatEngine BaseIndex)
    (m : _Message) (before : list _Message) :
  messages data = before ++ [m] -> msg_role m = USER ->
  engine_runs (chat' data engine)
    = [(msg_content m,
        map (fun m => mkChatMessage (msg_role m) (msg_content m)) before)] /\
  exists r, response (chat' data engine) = Streaming r.
Proof.
  intros Hm Hu. unfold chat. rewrite Hm, pop_snoc.
  rewrite decide_False by (rewrite length_app; simpl; lia).
  rewrite decide_False by (intros H; by apply H).
  split; [reflexivity|]. by eexists.
Qed.

(** C4.  A request with no messages, or whose last message is not from
    the user, is answered with an HTTP 400 error that carries a detail
    text, and [chat_engine.run] is not called. *)
Theorem bad_requests_are_rejected_before_the_run (data : _ChatData)
    (engine : ChatEngine BaseIndex) :
  (messages data = [] ->
   chat' data engine
     = mkChatOutcome []
         (Rejected (mkHTTPException 400 "No messages provided"))) /\
  (forall m,
     last (messages data) = Some m -> msg_role m <> USER ->
     chat' data engine
       = mkChatOutcome []
           (Rejected (mkHTTPException 400 "Last message must be from user"))).
Proof.
  split.
  - intros Hm. unfold chat. by rewrite Hm.
  - intros m Hl Hr. destruct (pop_last _ _ Hl) as (rest & Hm & Hp).
    unfold chat. rewrite Hp.
    rewrite decide_False by (rewrite Hm, length_app; simpl; lia).
    by rewrite decide_True.
Qed.

End Endpoint.

(** ** The generator on a run whose client goes away *)

(** C1 on the code.  The one-chunk run has five progress events.  With a
    client found gone at the third poll the generator sends the lines of
    the first two events, takes the third event from the stream, leaves the
    loop, and then still awaits the result of the run and sends the
    summary line. *)
Theorem disconnect_still_awaits_and_sends_summary :
  let trace :=
    event_generator Sample.after_two Sample.estimate_tokens_in_messages
      Sample.get_string_tokens Sample.short_run in
  length (stream_events Sample.short_run) = 6%nat /\
  exists line1 line2,
    render retrieving = inr line1 /\
    render (retrieved 3) = inr line2 /\
    trace =
      [ Fetch (Progress retrieving); Poll false; Yield line1;
        Fetch (Progress (retrieved 3)); Poll false; Yield line2;
        Fetch (Progress synthesizing); Poll true;
        AwaitResult;
        Yield ("2:Input tokens: 311, output tokens: 12" +:+ LF) ].
Proof.
  cbv zeta. split; [reflexivity|].
  eexists _, _. split; [reflexivity|]. split; [reflexivity|].
  vm_compute. reflexivity.
Qed.

(** * The statements at concrete inputs *)

Lemma setup_validates_query_and_messages_witness :
  (start_query (mkStartEvent None (Some [])) = None \/
   start_messages (mkStartEvent None (Some [])) = None) /\
  setup (Sample.engine None) (mkStartEvent None (Some [])) new_context
    = (inl (ValueError "Query and messages are required!"), new_context) /\
  exists ctx',
    setup (Sample.engine None)
      (mkStartEvent (Some "What is the refund policy?") (Some [])) new_context
      = (inr (mkRetrieveEvent "What is the refund policy?"), ctx').
Proof.
  pose proof (setup_validates_query_and_messages Sample.aretrieve
                Sample.memory_get Sample.str_format Sample.astream_chat
                (Sample.engine None)) as [Hok Hbad].
  split; [left; reflexivity|]. split.
  - apply (Hbad (mkStartEvent None (Some [])) new_context).
    left; reflexivity.
  - destruct (Hok "What is the refund policy?" [] new_context)
      as (ctx' & H & _).
    exists ctx'. exact H.
Defined.

Lemma stage_events_precede_text_chunks_witness :
  stream_events (Sample.refund_run None) !! 4%nat
    = Some (Progress (text_event (Sample.chunk "The" "The"))) /\
  exists j k,
    (j < k)%nat /\ (k < 4)%nat /\
    stream_events (Sample.refund_run None) !! j
      = Some (Progress synthesizing) /\
    stream_events (Sample.refund_run None) !! k
      = Some (Progress stream_created).
Proof.
  split; [vm_compute; reflexivity|].
  apply (stage_events_precede_text_chunks Sample.aretrieve Sample.memory_get
           Sample.str_format Sample.astream_chat (Sample.engine None)
           "What is the refund policy?" [] )
    with (e := text_event (Sample.chunk "The" "The"));
    [vm_compute; reflexivity|reflexivity].
Defined.

Lemma result_reads_the_last_chunk_witness :
  llm_requests
    (snd (synthesize Sample.memory_get Sample.str_format Sample.astream_chat
            (Sample.engine None) Sample.question Sample.ready))
    = llm_requests Sample.ready
        ++ [[mkChatMessage USER Sample.context_turn]] /\
  (exists chunk r,
     last [ Sample.chunk "The" "The"; Sample.chunk " refund" "The refund";
            Sample.chunk " policy..." "The refund policy..." ] = Some chunk /\
     fst (synthesize Sample.memory_get Sample.str_format Sample.astream_chat
            (Sample.engine None) Sample.question Sample.ready) = inr r /\
     res_response r = content (chunk_message chunk)) /\
  fst (synthesize Sample.memory_get Sample.str_format Sample.astream_nothing
         (Sample.engine None) Sample.question Sample.ready)
    = inl (UnboundLocalError "chunk").
Proof.
  split; [vm_compute; reflexivity|]. split.
  - apply (result_reads_the_last_chunk Sample.memory_get Sample.str_format
             Sample.astream_chat (Sample.engine None) Sample.question
             Sample.ready [mkChatMessage USER Sample.context_turn]
             (mkResponseGen
                [ Sample.chunk "The" "The"; Sample.chunk " refund" "The refund";
                  Sample.chunk " policy..." "The refund policy..." ] None));
      [vm_compute; reflexivity|vm_compute; reflexivity|reflexivity
      |discriminate].
  - apply (result_reads_the_last_chunk Sample.memory_get Sample.str_format
             Sample.astream_nothing (Sample.engine None) Sample.question
             Sample.ready [mkChatMessage USER Sample.context_turn]
             (mkResponseGen [] None));
      [vm_compute; reflexivity|vm_compute; reflexivity|reflexivity
      |reflexivity].
Defined.

(** C2 as stated fails on the code: the refund run returns a result whose
    message history holds no assistant message at all, so it does not
    include the assistant's final message. *)
Lemma result_history_lacks_the_assistant_message :
  ~ (forall r,
       final_result (Sample.refund_run None) = inr r ->
       exists m,
         m ∈ res_messages r /\ role m = ASSISTANT /\
         content m = res_response r).
Proof.
  intros H.
  destruct (H (Sample.result_of (Sample.refund_run None)))
    as (m & Hin & Hrole & _); [vm_compute; reflexivity|].
  assert (Hall : Forall (fun m => role m <> ASSISTANT)
                   (res_messages (Sample.result_of (Sample.refund_run None)))).
  { vm_compute. repeat constructor. discriminate. }
  rewrite Forall_forall in Hall. exact (Hall m Hin Hrole).
Qed.

Lemma result_holds_request_history_response_and_nodes_witness :
  fst (synthesize Sample.memory_get Sample.str_format Sample.astream_chat
         (Sample.engine (Some "Be brief.")) Sample.question Sample.ready)
    = inr (mkPipelineResult "What is the refund policy?"
             [ mkChatMessage SYSTEM "Be brief.";
               mkChatMessage USER Sample.context_turn ]
             "The refund policy..." (take 3 Sample.docs)) /\
  exists memory context_query gen chunk,
    globals Sample.ready !! "memory" = Some memory /\
    Sample.str_format (context_prompt (Sample.engine (Some "Be brief.")))
      (join (LF +:+ LF) (map get_content (take 3 Sample.docs)))
      "What is the refund policy?" = inr context_query /\
    [ mkChatMessage SYSTEM "Be brief.";
      mkChatMessage USER Sample.context_turn ] =
      (if truthy (Some "Be brief.")
       then [mkChatMessage SYSTEM (default "" (Some "Be brief."))]
       else [])
      ++ Sample.memory_get memory "What is the refund policy?"
      ++ [mkChatMessage USER context_query] /\
    last [ mkChatMessage SYSTEM "Be brief.";
           mkChatMessage USER Sample.context_turn ]
      = Some (mkChatMessage USER context_query) /\
    llm_requests
      (snd (synthesize Sample.memory_get Sample.str_format Sample.astream_chat
              (Sample.engine (Some "Be brief.")) Sample.question Sample.ready))
      = llm_requests Sample.ready
          ++ [[ mkChatMessage SYSTEM "Be brief.";
                mkChatMessage USER Sample.context_turn ]] /\
    Sample.astream_chat [ mkChatMessage SYSTEM "Be brief.";
                          mkChatMessage USER Sample.context_turn ] = inr gen /\
    last (gen_chunks gen) = Some chunk /\
    "The refund policy..." = content (chunk_message chunk) /\
    take 3 Sample.docs = sy_nodes Sample.question /\
    "What is the refund policy?" = sy_query Sample.question.
Proof.
  split; [vm_compute; reflexivity|].
  apply (result_holds_request_history_response_and_nodes Sample.memory_get
           Sample.str_format Sample.astream_chat
           (Sample.engine (Some "Be brief.")) Sample.question Sample.ready
           (mkPipelineResult "What is the refund policy?"
              [ mkChatMessage SYSTEM "Be brief.";
                mkChatMessage USER Sample.context_turn ]
              "The refund policy..." (take 3 Sample.docs))).
  vm_compute; reflexivity.
Defined.

(** C9 as stated fails on the code: an engine configured with the empty
    string as its system prompt sends a history that starts with the user
    turn, not with a system message. *)
Lemma empty_system_prompt_is_not_prepended :
  ~ (forall history,
       llm_requests
         (snd (synthesize Sample.memory_get Sample.str_format
                 Sample.astream_chat (Sample.engine (Some ""))
                 Sample.question Sample.ready)) = [history] ->
       (system_prompt (Sample.engine (Some "")) <> None <->
        exists m, head history = Some m /\ role m = SYSTEM)).
Proof.
  intros H.
  destruct (H [mkChatMessage USER Sample.context_turn]) as [Hto _];
    [vm_compute; reflexivity|].
  destruct Hto as (m & Hm & Hr); [discriminate|].
  simpl in Hm. injection Hm as <-. discriminate Hr.
Qed.

Lemma system_message_iff_nonempty_prompt_witness :
  globals Sample.ready !! "memory" = Some (mkMemory []) /\
  Sample.str_format (context_prompt (Sample.engine (Some "Be brief.")))
    (join (LF +:+ LF) (map get_content (sy_nodes Sample.question)))
    (sy_query Sample.question) = inr Sample.context_turn /\
  exists history,
    llm_requests
      (snd (synthesize Sample.memory_get Sample.str_format Sample.astream_chat
              (Sample.engine (Some "Be brief.")) Sample.question Sample.ready))
      = llm_requests Sample.ready ++ [history] /\
    ((exists prompt,
        system_prompt (Sample.engine (Some "Be brief.")) = Some prompt /\
        prompt <> "" /\
        history =
          mkChatMessage SYSTEM prompt
            :: (Sample.memory_get (mkMemory []) (sy_query Sample.question)
                  ++ [mkChatMessage USER Sample.context_turn])) \/
     ((system_prompt (Sample.engine (Some "Be brief.")) = None \/
       system_prompt (Sample.engine (Some "Be brief.")) = Some "") /\
      history =
        Sample.memory_get (mkMemory []) (sy_query Sample.question)
          ++ [mkChatMessage USER Sample.context_turn])).
Proof.
  split; [vm_compute; reflexivity|]. split; [vm_compute; reflexivity|].
  apply (system_message_iff_nonempty_prompt Sample.memory_get
           Sample.str_format Sample.astream_chat
           (Sample.engine (Some "Be brief.")) Sample.question Sample.ready
           (mkMemory []) Sample.context_turn);
    vm_compute; reflexivity.
Defined.

Lemma bad_requests_are_rejected_before_the_run_witness :
  last (messages (mk_ChatData [mk_Message USER "Hello";
                               mk_Message ASSISTANT "Hi, how can I help?"]))
    = Some (mk_Message ASSISTANT "Hi, how can I help?") /\
  msg_role (mk_Message ASSISTANT "Hi, how can I help?") <> USER /\
  chat Sample.aretrieve Sample.memory_get Sample.str_format
    Sample.astream_chat Sample.never Sample.estimate_tokens_in_messages
    Sample.get_string_tokens
    (mk_ChatData [mk_Message USER "Hello";
                  mk_Message ASSISTANT "Hi, how can I help?"])
    (Sample.engine None)
  = mkChatOutcome []
      (Rejected (mkHTTPException 400 "Last message must be from user")) /\
  chat Sample.aretrieve Sample.memory_get Sample.str_format
    Sample.astream_chat Sample.never Sample.estimate_tokens_in_messages
    Sample.get_string_tokens (mk_ChatData []) (Sample.engine None)
  = mkChatOutcome []
      (Rejected (mkHTTPException 400 "No messages provided")).
Proof.
  split; [reflexivity|]. split; [discriminate|]. split.
  - apply (bad_requests_are_rejected_before_the_run Sample.aretrieve
             Sample.memory_get Sample.str_format Sample.astream_chat
             Sample.never Sample.estimate_tokens_in_messages
             Sample.get_string_tokens
             (mk_ChatData [mk_Message USER "Hello";
                           mk_Message ASSISTANT "Hi, how can I help?"])
             (Sample.engine None))
      with (m := mk_Message ASSISTANT "Hi, how can I help?");
      [reflexivity|discriminate].
  - apply (bad_requests_are_rejected_before_the_run Sample.aretrieve
             Sample.memory_get Sample.str_format Sample.astream_chat
             Sample.never Sample.estimate_tokens_in_messages
             Sample.get_string_tokens (mk_ChatData []) (Sample.engine None)).
    reflexivity.
Defined.

Lemma progress_events_render_as_protocol_lines_witness :
  type (text_event (Sample.chunk " refund" "The refund")) = TText /\
  type retrieving <> TText /\
  (exists code,
     stream_part_types !! "text" = Some code /\
     render (text_event (Sample.chunk " refund" "The refund"))
       = inr (code +:+ ":" +:+ json_dumps (JStr " refund") +:+ LF)) /\
  (exists code,
     stream_part_types !! "data" = Some code /\
     model_dump retrieving
       = JDict [ ("type", JStr "data"); ("status", JStr "loading");
                 ("message", JStr "Retrieving relevant nodes...") ] /\
     render retrieving
       = inr (code +:+ ":" +:+ json_dumps (JList [model_dump retrieving])
              +:+ LF)) /\
  yielded (event_loop Sample.never [Stop; Progress retrieving] 0 [])
    = yielded (event_loop Sample.never [Progress retrieving] 1 []).
Proof.
  pose proof (progress_events_render_as_protocol_lines Sample.never)
    as (Htext & Hdata & _ & Hskip).
  split; [reflexivity|]. split; [discriminate|]. split; [|split].
  - apply (Htext (text_event (Sample.chunk " refund" "The refund"))).
    reflexivity.
  - apply (Hdata retrieving). discriminate.
  - apply (Hskip Stop [Progress retrieving] 0%nat []);
      [discriminate|reflexivity].
Defined.

Lemma summary_line_follows_the_events_witness :
  final_result (Sample.refund_run None)
    = inr (Sample.result_of (Sample.refund_run None)) /\
  (forall n, (n < length (stream_events (Sample.refund_run None)))%nat ->
             Sample.never n = false) /\
  yielded
    (event_generator Sample.never Sample.estimate_tokens_in_messages
       Sample.get_string_tokens (Sample.refund_run None))
  = event_lines (stream_events (Sample.refund_run None))
      ++ ["2:Input tokens: 311, output tokens: 20" +:+ LF].
Proof.
  split; [vm_compute; reflexivity|]. split; [reflexivity|].
  destruct (summary_line_follows_the_events Sample.never
              Sample.estimate_tokens_in_messages Sample.get_string_tokens
              (Sample.refund_run None)
              (Sample.result_of (Sample.refund_run None)))
    as (code & loop & Hcode & _ & _ & _ & _ & _ & Hlines);
    [vm_compute; reflexivity|reflexivity|].
  rewrite Hlines. f_equal.
  assert (code = "2") as -> by (vm_compute in Hcode; congruence).
  vm_compute. reflexivity.
Defined.

(** * Further properties of the workflow *)

Section RunFacts.

Context {BaseIndex : Type}.
Variable aretrieve : BaseIndex -> Z -> string -> Exc + list NodeWithScore.
Variable memory_get : ChatMemoryBuffer -> string -> list ChatMessage.
Variable str_format : string -> string -> string -> Exc + string.
Variable astream_chat : list ChatMessage -> Exc + ResponseGen.

Local Abbreviation workflow' :=
  (workflow aretrieve memory_get str_format astream_chat).
Local Abbreviation run' := (run aretrieve memory_get str_format astream_chat).

(** The history sent to the model in a run, spelled out. *)
Lemma request_of_eq (self : ChatEngine BaseIndex) memory query cq :
  request_of memory_get self memory query cq =
  (if truthy (system_prompt self)
   then [mkChatMessage SYSTEM (default "" (system_prompt self))]
   else [])
  ++ memory_get memory query ++ [mkChatMessage USER cq].
Proof. unfold request_of. by destruct (system_prompt self) as [[|a s]|]. Qed.

(** A whole run on a fresh context, by the outcome of each collaborator. *)
Lemma workflow_new (self : ChatEngine BaseIndex) q ms :
  workflow' self (mkStartEvent (Some q) (Some ms)) new_context =
  let store : gmap string ChatMemoryBuffer := <["memory" := mkMemory ms]> ∅ in
  match aretrieve (index self) (top_k self) q with
  | inl e => (inl e, mkContext store [retrieving] [])
  | inr nodes =>
      let before := [retrieving; retrieved (length nodes); synthesizing] in
      match str_format (context_prompt self)
              (join (LF +:+ LF) (map get_content nodes)) q with
      | inl e => (inl e, mkContext store before [])
      | inr cq =>
          let history := request_of memory_get self (mkMemory ms) q cq in
          match astream_chat history with
          | inl e => (inl e, mkContext store before [history])
          | inr gen =>
              let ctx' :=
                mkContext store
                  ([retrieving; retrieved (length nodes); synthesizing;
                    stream_created] ++ map text_event (gen_chunks gen))
                  [history] in
              match gen_failure gen with
              | Some e => (inl e, ctx')
              | None =>
                  match last (gen_chunks gen) with
                  | None => (inl (UnboundLocalError "chunk"), ctx')
                  | Some chunk =>
                      (inr (mkPipelineResult q history
                              (content (chunk_message chunk)) nodes), ctx')
                  end
              end
          end
      end
  end.
Proof.
  rewrite workflow_eq. cbv zeta.
  destruct (aretrieve _ _ _) as [e|nodes]; [reflexivity|].
  rewrite synthesize_eq, globals_wrote. simpl globals.
  rewrite lookup_insert_eq. simpl sy_nodes. simpl sy_query.
  destruct (str_format _ _ _) as [e|cq]; [reflexivity|].
  cbv zeta. destruct (astream_chat _) as [e|gen]; [reflexivity|].
  destruct (gen_failure gen); [|destruct (last _)]; reflexivity.
Qed.

(** X1.  When the retriever, the template and the model all succeed and
    the stream has a last chunk, the run returns the query unchanged, the
    history that was sent to the model (built from the messages given to
    [run]), the last chunk's message content and the retrieved nodes; its
    stream holds the four stage events, one text event per chunk in order,
    and the closing event; the model was asked exactly once. *)
Theorem run_returns_what_the_stages_built (self : ChatEngine BaseIndex)
    (query : string) (messages : list ChatMessage)
    (nodes : list NodeWithScore) (context_query : string)
    (gen : ResponseGen) (chunk : ChatResponse) :
  aretrieve (index self) (top_k self) query = inr nodes ->
  str_format (context_prompt self)
    (join (LF +:+ LF) (map get_content nodes)) query = inr context_query ->
  let history :=
    (if truthy (system_prompt self)
     then [mkChatMessage SYSTEM (default "" (system_prompt self))]
     else [])
    ++ memory_get (mkMemory messages) query
    ++ [mkChatMessage USER context_query] in
  astream_chat history = inr gen ->
  gen_failure gen = None ->
  last (gen_chunks gen) = Some chunk ->
  run' self query messages =
    mkHandler
      (map Progress
         ([retrieving; retrieved (length nodes); synthesizing; stream_created]
            ++ map text_event (gen_chunks gen))
       ++ [Stop])
      (inr (mkPipelineResult query history
              (content (chunk_message chunk)) nodes)) /\
  llm_requests
    (snd (workflow' self (mkStartEvent (Some query) (Some messages))
            new_context)) = [history].
Proof.
  intros Hn Hf history Hg Hnf Hl. unfold history in *.
  rewrite <- request_of_eq in *.
  unfold run. rewrite workflow_new. cbv zeta.
  by rewrite Hn, Hf, Hg, Hnf, Hl.
Qed.

(** X2.  A collaborator's failure ends the run with that failure at the
    point where it occurs: a retriever failure after the first event and
    with the model never asked; a template failure after the synthesis
    [loading] event, again with the model never asked; a refusal by the
    model with it asked once and no [done] event for synthesis; a stream
    that breaks after all the text events of the chunks it delivered. *)
Theorem run_stops_at_the_first_failure (self : ChatEngine BaseIndex)
    (query : string) (messages : list ChatMessage) :
  let out :=
    workflow' self (mkStartEvent (Some query) (Some messages)) new_context in
  (forall e,
     aretrieve (index self) (top_k self) query = inl e ->
     run' self query messages
       = mkHandler [Progress retrieving; Stop] (inl e) /\
     llm_requests (snd out) = []) /\
  (forall nodes,
     aretrieve (index self) (top_k self) query = inr nodes ->
     (forall e,
        str_format (context_prompt self)
          (join (LF +:+ LF) (map get_content nodes)) query = inl e ->
        run' self query messages
          = mkHandler [ Progress retrieving;
                        Progress (retrieved (length nodes));
                        Progress synthesizing; Stop ] (inl e) /\
        llm_requests (snd out) = []) /\
     (forall context_query,
        str_format (context_prompt self)
          (join (LF +:+ LF) (map get_content nodes)) query
          = inr context_query ->
        let history :=
          (if truthy (system_prompt self)
           then [mkChatMessage SYSTEM (default "" (system_prompt self))]
           else [])
          ++ memory_get (mkMemory messages) query
          ++ [mkChatMessage USER context_query] in
        (forall e,
           astream_chat history = inl e ->
           run' self query messages
             = mkHandler [ Progress retrieving;
                           Progress (retrieved (length nodes));
                           Progress synthesizing; Stop ] (inl e) /\
           llm_requests (snd out) = [history]) /\
        (forall gen e,
           astream_chat history = inr gen ->
           gen_failure gen = Some e ->
           run' self query messages
             = mkHandler
                 (map Progress
                    ([ retrieving; retrieved (length nodes); synthesizing;
                       stream_created ] ++ map text_event (gen_chunks gen))
                  ++ [Stop])
                 (inl e) /\
           llm_requests (snd out) = [history]))).
Proof.
  cbv zeta. unfold run. rewrite workflow_new. cbv zeta. split.
  - intros e ->. done.
  - intros nodes ->. split.
    + intros e ->. done.
    + intros cq ->. rewrite <- request_of_eq. split.
      * intros e ->. done.
      * intros gen e -> ->. done.
Qed.

(** X3.  A run started by [run] fails only where a collaborator fails or
    where the stream is empty: never with the input error of [setup] and
    never for want of the memory buffer. *)
Theorem run_fails_only_with_a_collaborator (self : ChatEngine BaseIndex)
    (query : string) (messages : list ChatMessage) (e : Exc) :
  final_result (run' self query messages) = inl e ->
  aretrieve (index self) (top_k self) query = inl e \/
  exists nodes,
    aretrieve (index self) (top_k self) query = inr nodes /\
    (str_format (context_prompt self)
       (join (LF +:+ LF) (map get_content nodes)) query = inl e \/
     exists context_query,
       str_format (context_prompt self)
         (join (LF +:+ LF) (map get_content nodes)) query
         = inr context_query /\
       let history :=
         (if truthy (system_prompt self)
          then [mkChatMessage SYSTEM (default "" (system_prompt self))]
          else [])
         ++ memory_get (mkMemory messages) query
         ++ [mkChatMessage USER context_query] in
       (astream_chat history = inl e \/
        exists gen,
          astream_chat history = inr gen /\
          (gen_failure gen = Some e \/
           (gen_failure gen = None /\ gen_chunks gen = [] /\
            e = UnboundLocalError "chunk")))).
Proof.
  unfold run. cbn [final_result]. rewrite workflow_new. cbv zeta.
  destruct (aretrieve _ _ _) as [e1|nodes]; [intros [= ->]; by left|].
  intros H. right. exists nodes. split; [reflexivity|]. revert H.
  destruct (str_format _ _ _) as [e1|cq]; [intros [= ->]; by left|].
  intros H. right. exists cq. split; [reflexivity|]. revert H.
  rewrite <- request_of_eq.
  destruct (astream_chat _) as [e1|gen] eqn:Hg.
  { intros [= ->]. by left. }
  destruct (gen_failure gen) as [e1|] eqn:Hf.
  { intros [= ->]. right. exists gen. auto. }
  destruct (last (gen_chunks gen)) as [chunk|] eqn:Hl; [discriminate|].
  intros [= <-]. right. exists gen.
  split; [reflexivity|]. right. apply last_None in Hl. auto.
Qed.

End RunFacts.

(** * Further properties of the transport *)

Lemma drained_loop_actions events : Forall loop_action (drained events).
Proof.
  induction events as [|ev rest IH]; [constructor|].
  simpl. destruct (event_line ev); repeat (constructor; [exact I|]); done.
Qed.

Lemma fetched_app t1 t2 : fetched (t1 ++ t2) = fetched t1 ++ fetched t2.
Proof.
  induction t1 as [|a t1 IH]; [reflexivity|].
  destruct a; simpl; by rewrite ?IH.
Qed.

Section TransportFacts.

Variable is_disconnected : nat -> bool.
Variable estimate_tokens_in_messages : list ChatMessage -> Z.
Variable get_string_tokens : string -> Z.

Local Abbreviation event_loop' := (event_loop is_disconnected).
Local Abbreviation after_loop' :=
  (after_loop estimate_tokens_in_messages get_string_tokens).
Local Abbreviation event_generator' :=
  (event_generator is_disconnected estimate_tokens_in_messages
     get_string_tokens).

Lemma event_loop_first_disconnect events n k ev after :
  events !! k = Some ev ->
  is_disconnected (n + k) = true ->
  (forall i, (i < k)%nat -> is_disconnected (n + i) = false) ->
  event_loop' events n after
    = drained (take k events) ++ [Fetch ev; Poll true] ++ after.
Proof.
  revert n k. induction events as [|x rest IH]; intros n k Hk Hd Hc.
  { discriminate Hk. }
  destruct k as [|k].
  - simpl in Hk. injection Hk as ->. cbn [event_loop take drained].
    rewrite Nat.add_0_r in Hd. by rewrite Hd.
  - cbn [event_loop take drained]. simpl in Hk.
    assert (Hn : is_disconnected n = false).
    { rewrite <- (Nat.add_0_r n). apply Hc. lia. }
    rewrite Hn.
    assert (Hrest : event_loop' rest (S n) after
                    = drained (take k rest) ++ [Fetch ev; Poll true] ++ after).
    { apply IH; [exact Hk| |].
      - by replace (S n + k)%nat with (n + S k)%nat by lia.
      - intros i Hi. replace (S n + i)%nat with (n + S i)%nat by lia.
        apply Hc. lia. }
    destruct x as [e| |name]; simpl event_line; try by rewrite Hrest.
    destruct (render_total e) as [line ->]. by rewrite Hrest.
Qed.

(** X4.  When the poll before the event at place [k] is the first to find
    the client gone, the loop has sent exactly the lines of the [k] events
    before it, in order; it has taken [k + 1] events from the stream, and
    it takes and sends nothing of the rest. *)
Theorem loop_stops_at_the_first_disconnect (events : list StreamEvent)
    (k : nat) (ev : StreamEvent) (after : list Action) :
  events !! k = Some ev ->
  is_disconnected k = true ->
  (forall i, (i < k)%nat -> is_disconnected i = false) ->
  exists loop,
    event_loop' events 0 after = loop ++ after /\
    yielded loop = event_lines (take k events) /\
    fetched loop = take (S k) events /\
    last loop = Some (Poll true) /\
    Forall loop_action loop.
Proof.
  intros Hk Hd Hc.
  exists (drained (take k events) ++ [Fetch ev; Poll true]).
  rewrite (event_loop_first_disconnect events 0 k ev after Hk Hd Hc).
  split; [by rewrite <- (assoc_L (++))|].
  split; [rewrite yielded_app, yielded_drained; simpl; apply right_id_L, _|].
  split.
  { rewrite fetched_app, fetched_drained. simpl.
    by rewrite (take_S_r _ _ _ Hk). }
  split; [by rewrite last_app|].
  apply Forall_app. split; [apply drained_loop_actions|].
  repeat (constructor; [exact I|]). constructor.
Qed.

(** X5.  When the run has failed and no poll finds the client gone, the
    generator sends the lines of the events, awaits the run and raises the
    run's failure: no summary line and no line of the error type is sent. *)
Theorem failed_run_raises_after_the_events (handler : Handler) (e : Exc) :
  final_result handler = inl e ->
  (forall n, (n < length (stream_events handler))%nat ->
             is_disconnected n = false) ->
  event_generator' handler
    = drained (stream_events handler) ++ [AwaitResult; Raise e] /\
  yielded (event_generator' handler) = event_lines (stream_events handler) /\
  fetched (event_generator' handler) = stream_events handler.
Proof.
  intros Hres Hc.
  assert (Hgen : event_generator' handler
                 = drained (stream_events handler) ++ [AwaitResult; Raise e]).
  { unfold event_generator. rewrite event_loop_connected by exact Hc.
    unfold after_loop. by rewrite Hres. }
  rewrite Hgen. split; [reflexivity|]. split.
  - rewrite yielded_app, yielded_drained. simpl. apply right_id_L, _.
  - rewrite fetched_app, fetched_drained. simpl. apply right_id_L, _.
Qed.



End TransportFacts.

(** * Further properties of the endpoint *)

Lemma render_data st msg :
  render (mkProgressEvent TData st msg)
    = inr (data_line (mkProgressEvent TData st msg)).
Proof. reflexivity. Qed.

Lemma render_text st msg :
  render (mkProgressEvent TText st msg) = inr (text_line msg).
Proof. reflexivity. Qed.

Lemma event_lines_cons_data event rest :
  type event = TData ->
  event_lines (Progress event :: rest) = data_line event :: event_lines rest.
Proof. destruct event as [[] st msg]; [reflexivity|discriminate]. Qed.

Lemma event_lines_text_events chunks :
  event_lines (map Progress (map text_event chunks) ++ [Stop])
    = map (fun c => text_line (delta c)) chunks.
Proof.
  induction chunks as [|c rest IH]; [reflexivity|].
  change (event_lines (map Progress (map text_event (c :: rest)) ++ [Stop]))
    with (text_line (delta c)
            :: event_lines (map Progress (map text_event rest) ++ [Stop])).
  by rewrite IH.
Qed.

Lemma nonempty_snoc {A} (l : list A) :
  l <> [] -> exists before x, l = before ++ [x].
Proof.
  intros Hne. destruct (last l) as [x|] eqn:Hl.
  - apply last_Some in Hl as [before ->]. by exists before, x.
  - by apply last_None in Hl.
Qed.

Section EndpointFacts.

Context {BaseIndex : Type}.
Variable aretrieve : BaseIndex -> Z -> string -> Exc + list NodeWithScore.
Variable memory_get : ChatMemoryBuffer -> string -> list ChatMessage.
Variable str_format : string -> string -> string -> Exc + string.
Variable astream_chat : list ChatMessage -> Exc + ResponseGen.
Variable is_disconnected : nat -> bool.
Variable estimate_tokens_in_messages : list ChatMessage -> Z.
Variable get_string_tokens : string -> Z.

Local Abbreviation chat' :=
  (chat aretrieve memory_get str_format astream_chat is_disconnected
     estimate_tokens_in_messages get_string_tokens).
Local Abbreviation run' := (run aretrieve memory_get str_format astream_chat).
Local Abbreviation event_generator' :=
  (event_generator is_disconnected estimate_tokens_in_messages
     get_string_tokens).

Lemma chat_accepts (data : _ChatData) (engine : ChatEngine BaseIndex)
    before m :
  messages data = before ++ [m] -> msg_role m = USER ->
  chat' data engine =
  let history :=
    map (fun m => mkChatMessage (msg_role m) (msg_content m)) before in
  mkChatOutcome [(msg_content m, history)]
    (Streaming
       (mkStreamingResponse
          (event_generator' (run' engine (msg_content m) history))
          "text/event-stream" [("X-Experimental-Stream-Data", "true")])).
Proof.
  intros Hm Hu. unfold chat. rewrite Hm, pop_snoc.
  rewrite decide_False by (rewrite length_app; simpl; lia).
  by rewrite decide_False by (intros H; by apply H).
Qed.

(** X7.  [chat] never fails on its own [pop]: every request is either
    rejected or answered with a stream.  It is answered with a stream
    exactly when it has a last message and that message is from the user;
    the stream is then the generator over one run whose query is the
    content of that message and whose history is the earlier messages, in
    order, with their roles and contents; it has the event-stream media
    type and the experimental stream header. *)
Theorem chat_streams_exactly_the_user_turns (data : _ChatData)
    (engine : ChatEngine BaseIndex) :
  (forall e, response (chat' data engine) <> Crashed e) /\
  ((exists r, response (chat' data engine) = Streaming r) <->
   (exists before m,
      messages data = before ++ [m] /\ msg_role m = USER)) /\
  (forall before m,
     messages data = before ++ [m] -> msg_role m = USER ->
     let history :=
       map (fun m => mkChatMessage (msg_role m) (msg_content m)) before in
     engine_runs (chat' data engine) = [(msg_content m, history)] /\
     response (chat' data engine)
       = Streaming
           (mkStreamingResponse
              (event_generator' (run' engine (msg_content m) history))
              "text/event-stream" [("X-Experimental-Stream-Data", "true")])).
Proof.
  assert (Hcases :
    messages data = [] \/
    exists before m, messages data = before ++ [m]).
  { destruct (decide (messages data = [])) as [?|Hne]; [by left|].
    right. by apply nonempty_snoc. }
  split; [|split].
  - intros e. destruct Hcases as [Hnil|(before & m & Hm)].
    + unfold chat. by rewrite Hnil.
    + unfold chat. rewrite Hm, pop_snoc.
      rewrite decide_False by (rewrite length_app; simpl; lia).
      by destruct (decide (msg_role m <> USER)).
  - split.
    + intros [r Hr]. destruct Hcases as [Hnil|(before & m & Hm)].
      * revert Hr. unfold chat. by rewrite Hnil.
      * exists before, m. split; [exact Hm|].
        revert Hr. unfold chat. rewrite Hm, pop_snoc.
        rewrite decide_False by (rewrite length_app; simpl; lia).
        destruct (decide (msg_role m <> USER)) as [|Hu]; [discriminate|].
        intros _. by destruct (decide (msg_role m = USER)).
    + intros (before & m & Hm & Hu). rewrite (chat_accepts _ _ _ _ Hm Hu).
      by eexists.
  - intros before m Hm Hu. by rewrite (chat_accepts _ _ _ _ Hm Hu).
Qed.

(** X8.  End to end: for a request whose last message is from the user,
    when retrieval, formatting and the model succeed, the stream has a
    last chunk and the client stays connected, the lines sent are, in
    order: the four data lines of the stage events (the second reporting
    the number of nodes retrieved), one text line per chunk carrying its
    delta, and the summary line, whose input count is the estimate over
    the history sent to the model and whose output count is that of the
    last chunk's message content. *)
Theorem chat_sends_stage_lines_text_lines_and_summary (data : _ChatData)
    (engine : ChatEngine BaseIndex) (before : list _Message) (m : _Message)
    (nodes : list NodeWithScore) (context_query : string)
    (gen : ResponseGen) (chunk : ChatResponse) :
  messages data = before ++ [m] ->
  msg_role m = USER ->
  let query := msg_content m in
  let earlier :=
    map (fun m => mkChatMessage (msg_role m) (msg_content m)) before in
  aretrieve (index engine) (top_k engine) query = inr nodes ->
  str_format (context_prompt engine)
    (join (LF +:+ LF) (map get_content nodes)) query = inr context_query ->
  let history :=
    (if truthy (system_prompt engine)
     then [mkChatMessage SYSTEM (default "" (system_prompt engine))]
     else [])
    ++ memory_get (mkMemory earlier) query
    ++ [mkChatMessage USER context_query] in
  astream_chat history = inr gen ->
  gen_failure gen = None ->
  last (gen_chunks gen) = Some chunk ->
  (forall n, (n < 5 + length (gen_chunks gen))%nat ->
             is_disconnected n = false) ->
  exists r,
    response (chat' data engine) = Streaming r /\
    yielded (body r) =
      [ data_line retrieving;
        data_line (retrieved (length nodes));
        data_line synthesizing;
        data_line stream_created ]
      ++ map (fun c => text_line (delta c)) (gen_chunks gen)
      ++ [ "2" +:+ ":" +:+
           ("Input tokens: "
              +:+ str_of_Z (estimate_tokens_in_messages history)
              +:+ ", output tokens: "
              +:+ str_of_Z (get_string_tokens
                              (content (chunk_message chunk))))
           +:+ LF ].
Proof.
  intros Hm Hu query earlier Hn Hf history Hg Hnf Hl Hc.
  rewrite (chat_accepts _ _ _ _ Hm Hu). cbv zeta. eexists.
  split; [reflexivity|]. cbn [body].
  fold query earlier. unfold run. rewrite workflow_new. cbv zeta.
  rewrite Hn, Hf, request_of_eq. fold history. rewrite Hg, Hnf, Hl.
  cbn [fst snd streaming_queue].
  unfold event_generator. cbn [stream_events final_result].
  rewrite event_loop_connected.
  2:{ intros i Hi. apply Hc.
      rewrite length_app, length_map, length_app, length_map in Hi.
      simpl in Hi. simpl. lia. }
  rewrite yielded_app, yielded_drained.
  rewrite map_app, <- (assoc_L (++)).
  cbn [map app].
  rewrite !event_lines_cons_data by reflexivity.
  by rewrite event_lines_text_events.
Qed.

End EndpointFacts.

(** * Further properties of the wire format *)


Lemma unescape_quote r : unescape_one (String (ascii_of_nat 34) r) = None.
Proof. reflexivity. Qed.


Lemma text_line_eq msg :
  text_line msg =
  "0:" +:+ String (ascii_of_nat 34)
             (escape_chars msg +:+ String (ascii_of_nat 34) LF).
Proof.
  unfold text_line. cbn [json_dumps]. unfold encode_basestring_ascii, DQ.
  by rewrite !append_assoc.
Qed.


Lemma data_line_eq st msg :
  data_line (mkProgressEvent TData st msg) =
  data_head st
    +:+ (escape_chars msg +:+ String (ascii_of_nat 34) ("}]" +:+ LF)).
Proof.
  unfold data_line, data_head, model_dump.
  cbn [json_dumps map join fst snd type status message type_str].
  generalize (encode_basestring_ascii "type"),
    (encode_basestring_ascii "data"), (encode_basestring_ascii "status"),
    (encode_basestring_ascii (status_str st)),
    (encode_basestring_ascii "message").
  intros a b c d e. unfold encode_basestring_ascii, DQ.
  generalize (escape_chars msg). intros x.
  rewrite !append_assoc. reflexivity.
Qed.




Lemma printable_app a b : printable (a +:+ b) = printable a && printable b.
Proof.
  induction a as [|x a IH]; [reflexivity|].
  change ((32 <=? N_of_ascii x)%N && (N_of_ascii x <=? 126)%N
            && printable (a +:+ b)
          = (32 <=? N_of_ascii x)%N && (N_of_ascii x <=? 126)%N
              && printable a && printable b).
  by rewrite IH, andb_assoc.
Qed.

Lemma escape_char_printable c : printable (escape_char c) = true.
Proof. destruct c as [[] [] [] [] [] [] [] []]; reflexivity. Qed.

Lemma escape_chars_printable s : printable (escape_chars s) = true.
Proof.
  induction s as [|c s IH]; [reflexivity|].
  change (printable (escape_char c +:+ escape_chars s) = true).
  by rewrite printable_app, escape_char_printable, IH.
Qed.

(** X10.  Whatever characters a message holds, the line rendered for a
    progress event is printable ASCII up to its closing line feed: every
    control character, quote, backslash and non-ASCII character of the
    message is sent escaped. *)
Theorem rendered_lines_are_printable_ascii (event : ProgressEvent) :
  exists body,
    render event = inr (body +:+ LF) /\ printable body = true.
Proof.
  destruct event as [[] st msg].
  - exists (data_head st +:+ (escape_chars msg +:+ DQ +:+ "}]")).
    rewrite render_data, data_line_eq. split.
    + f_equal. unfold DQ. by rewrite !append_assoc.
    + rewrite !printable_app, escape_chars_printable. by destruct st.
  - exists ("0:" +:+ DQ +:+ escape_chars msg +:+ DQ).
    rewrite render_text, text_line_eq. split.
    + f_equal. unfold DQ. by rewrite !append_assoc.
    + by rewrite !printable_app, escape_chars_printable.
Qed.

(** * Further properties of the engine factory *)

Lemma py_or_nonempty a b : b <> "" -> py_or a b <> "".
Proof. by destruct a as [[|c s]|]. Qed.

(** X11.  [get_chat_engine] fails exactly when [TOP_K] is set to a text
    that [int] rejects, with that error.  Otherwise the engine holds the
    index, the system prompt as [SYSTEM_PROMPT] has it (unset, empty or
    not), a context template that is never empty (that of
    [CONTEXT_PROMPT] when it is set and not empty, else the default one),
    and as top-k the value of [TOP_K], or 3 when it is unset. *)
Theorem engine_follows_the_environment {BaseIndex : Type}
    (get_index : BaseIndex) (py_int : string -> Exc + Z)
    (environ : gmap string string) :
  (forall e,
     get_chat_engine get_index py_int environ = inl e <->
     exists s, environ !! "TOP_K" = Some s /\ py_int s = inl e) /\
  (forall self,
     get_chat_engine get_index py_int environ = inr self ->
     index self = get_index /\
     system_prompt self = environ !! "SYSTEM_PROMPT" /\
     context_prompt self <> "" /\
     (truthy (environ !! "CONTEXT_PROMPT") = true ->
      environ !! "CONTEXT_PROMPT" = Some (context_prompt self)) /\
     (truthy (environ !! "CONTEXT_PROMPT") = false ->
      context_prompt self = CONTEXT_PROMPT) /\
     match environ !! "TOP_K" with
     | Some s => py_int s = inr (top_k self)
     | None => top_k self = 3
     end).
Proof.
  unfold get_chat_engine. split.
  - intros e. destruct (environ !! "TOP_K") as [s|].
    + destruct (py_int s) as [e'|k] eqn:Hs; split.
      * intros [= ->]. by exists s.
      * intros (s' & [= <-] & Hs'). congruence.
      * discriminate.
      * intros (s' & [= <-] & Hs'). congruence.
    + split; [discriminate|]. by intros (s & Hs & _).
  - intros self Hself.
    assert (Hfields :
      exists k, self = ChatEngine_init get_index k
                         (environ !! "SYSTEM_PROMPT")
                         (environ !! "CONTEXT_PROMPT") /\
                match environ !! "TOP_K" with
                | Some s => py_int s = inr k
                | None => k = 3
                end).
    { destruct (environ !! "TOP_K") as [s|].
      - destruct (py_int s) as [e'|k]; [discriminate|].
        injection Hself as <-. by exists k.
      - injection Hself as <-. by exists 3. }
    destruct Hfields as (k & -> & Hk). cbn [index system_prompt top_k
      context_prompt ChatEngine_init].
    repeat split; try done.
    + by apply py_or_nonempty.
    + by destruct (environ !! "CONTEXT_PROMPT") as [[|c s]|].
    + by destruct (environ !! "CONTEXT_PROMPT") as [[|c s]|].
Qed.

(** * The further properties at concrete inputs *)

Lemma run_returns_what_the_stages_built_witness :
  Sample.aretrieve (index (Sample.engine None)) (top_k (Sample.engine None))
    "What is the refund policy?" = inr (take 3 Sample.docs) /\
  Sample.astream_chat Sample.refund_history = inr Sample.three_chunks /\
  Sample.refund_run None =
    mkHandler
      (map Progress
         ([retrieving; retrieved 3; synthesizing; stream_created]
            ++ map text_event (gen_chunks Sample.three_chunks))
       ++ [Stop])
      (inr (mkPipelineResult "What is the refund policy?"
              Sample.refund_history "The refund policy..."
              (take 3 Sample.docs))).
Proof.
  split; [reflexivity|]. split; [reflexivity|].
  apply (run_returns_what_the_stages_built Sample.aretrieve
           Sample.memory_get Sample.str_format Sample.astream_chat
           (Sample.engine None) "What is the refund policy?" []
           (take 3 Sample.docs) Sample.context_turn Sample.three_chunks
           (Sample.chunk " policy..." "The refund policy..."));
    vm_compute; reflexivity.
Defined.

Lemma run_stops_at_the_first_failure_witness :
  Sample.aretrieve_down (index (Sample.engine None))
    (top_k (Sample.engine None)) "What is the refund policy?"
    = inl (CollaboratorError "index unavailable") /\
  run Sample.aretrieve_down Sample.memory_get Sample.str_format
    Sample.astream_chat (Sample.engine None) "What is the refund policy?" []
    = mkHandler [Progress retrieving; Stop]
        (inl (CollaboratorError "index unavailable")) /\
  Sample.broken_run
    = mkHandler
        (map Progress
           ([retrieving; retrieved 3; synthesizing; stream_created]
              ++ map text_event
                   [ Sample.chunk "The" "The";
                     Sample.chunk " refund" "The refund" ])
         ++ [Stop])
        (inl (CollaboratorError "connection reset")).
Proof.
  split; [reflexivity|]. split.
  - apply (run_stops_at_the_first_failure Sample.aretrieve_down
             Sample.memory_get Sample.str_format Sample.astream_chat
             (Sample.engine None) "What is the refund policy?" []).
    reflexivity.
  - destruct (run_stops_at_the_first_failure Sample.aretrieve
                Sample.memory_get Sample.str_format Sample.astream_broken
                (Sample.engine None) "What is the refund policy?" [])
      as [_ Hnodes].
    destruct (Hnodes (take 3 Sample.docs)) as [_ Hformat];
      [reflexivity|].
    destruct (Hformat Sample.context_turn) as [_ Hbreaks];
      [vm_compute; reflexivity|].
    apply (Hbreaks
             (mkResponseGen
                [ Sample.chunk "The" "The";
                  Sample.chunk " refund" "The refund" ]
                (Some (CollaboratorError "connection reset"))));
      [vm_compute; reflexivity|reflexivity].
Defined.

Lemma run_fails_only_with_a_collaborator_witness :
  final_result Sample.empty_run = inl (UnboundLocalError "chunk") /\
  exists gen,
    Sample.astream_nothing Sample.refund_history = inr gen /\
    gen_failure gen = None /\ gen_chunks gen = [].
Proof.
  split; [vm_compute; reflexivity|].
  destruct (run_fails_only_with_a_collaborator Sample.aretrieve
              Sample.memory_get Sample.str_format Sample.astream_nothing
              (Sample.engine None) "What is the refund policy?" []
              (UnboundLocalError "chunk"))
    as [Hdown|(nodes & _ & [Hformat|(cq & _ & Hmodel)])];
    [vm_compute; reflexivity|discriminate Hdown|discriminate Hformat|].
  exists (mkResponseGen [] None). by repeat split.
Defined.

Lemma loop_stops_at_the_first_disconnect_witness :
  stream_events Sample.short_run !! 2%nat = Some (Progress synthesizing) /\
  Sample.after_two 2 = true /\
  (forall i, (i < 2)%nat -> Sample.after_two i = false) /\
  exists loop,
    event_loop Sample.after_two (stream_events Sample.short_run) 0 []
      = loop ++ [] /\
    yielded loop = [data_line retrieving; data_line (retrieved 3)] /\
    fetched loop
      = [Progress retrieving; Progress (retrieved 3); Progress synthesizing].
Proof.
  assert (Hc : forall i, (i < 2)%nat -> Sample.after_two i = false).
  { intros [|[|i]] Hi; [reflexivity|reflexivity|lia]. }
  split; [vm_compute; reflexivity|]. split; [reflexivity|].
  split; [exact Hc|].
  destruct (loop_stops_at_the_first_disconnect Sample.after_two
              (stream_events Sample.short_run) 2 (Progress synthesizing) [])
    as (loop & Hloop & Hlines & Hfetched & _);
    [vm_compute; reflexivity|reflexivity|exact Hc|].
  exists loop. split; [exact Hloop|]. split.
  - rewrite Hlines. vm_compute. reflexivity.
  - rewrite Hfetched. vm_compute. reflexivity.
Defined.

Lemma failed_run_raises_after_the_events_witness :
  final_result Sample.broken_run
    = inl (CollaboratorError "connection reset") /\
  (forall n, (n < length (stream_events Sample.broken_run))%nat ->
             Sample.never n = false) /\
  yielded
    (event_generator Sample.never Sample.estimate_tokens_in_messages
       Sample.get_string_tokens Sample.broken_run)
  = [ data_line retrieving; data_line (retrieved 3); data_line synthesizing;
      data_line stream_created; text_line "The"; text_line " refund" ].
Proof.
  split; [vm_compute; reflexivity|]. split; [reflexivity|].
  destruct (failed_run_raises_after_the_events Sample.never
              Sample.estimate_tokens_in_messages Sample.get_string_tokens
              Sample.broken_run (CollaboratorError "connection reset"))
    as (_ & Hlines & _); [vm_compute; reflexivity|reflexivity|].
  rewrite Hlines. vm_compute. reflexivity.
Defined.


Lemma chat_streams_exactly_the_user_turns_witness :
  messages Sample.refund_request
    = [] ++ [mk_Message USER "What is the refund policy?"] /\
  engine_runs
    (chat Sample.aretrieve Sample.memory_get Sample.str_format
       Sample.astream_chat Sample.never Sample.estimate_tokens_in_messages
       Sample.get_string_tokens Sample.refund_request (Sample.engine None))
  = [("What is the refund policy?", [])].
Proof.
  split; [reflexivity|].
  apply (chat_streams_exactly_the_user_turns Sample.aretrieve
           Sample.memory_get Sample.str_format Sample.astream_chat
           Sample.never Sample.estimate_tokens_in_messages
           Sample.get_string_tokens Sample.refund_request
           (Sample.engine None))
    with (before := []) (m := mk_Message USER "What is the refund policy?");
    reflexivity.
Defined.

Lemma chat_sends_stage_lines_text_lines_and_summary_witness :
  messages Sample.refund_request
    = [] ++ [mk_Message USER "What is the refund policy?"] /\
  (forall n, (n < 5 + length (gen_chunks Sample.three_chunks))%nat ->
             Sample.never n = false) /\
  exists r,
    response
      (chat Sample.aretrieve Sample.memory_get Sample.str_format
         Sample.astream_chat Sample.never Sample.estimate_tokens_in_messages
         Sample.get_string_tokens Sample.refund_request (Sample.engine None))
    = Streaming r /\
    yielded (body r) =
      [ data_line retrieving; data_line (retrieved 3);
        data_line synthesizing; data_line stream_created;
        text_line "The"; text_line " refund"; text_line " policy...";
        "2:Input tokens: 311, output tokens: 20" +:+ LF ].
Proof.
  split; [reflexivity|]. split; [reflexivity|].
  destruct (chat_sends_stage_lines_text_lines_and_summary Sample.aretrieve
              Sample.memory_get Sample.str_format Sample.astream_chat
              Sample.never Sample.estimate_tokens_in_messages
              Sample.get_string_tokens Sample.refund_request
              (Sample.engine None) []
              (mk_Message USER "What is the refund policy?")
              (take 3 Sample.docs) Sample.context_turn Sample.three_chunks
              (Sample.chunk " policy..." "The refund policy..."))
    as (r & Hr & Hlines);
    [reflexivity|reflexivity|reflexivity|vm_compute; reflexivity
    |vm_compute; reflexivity|reflexivity|reflexivity|reflexivity|].
  exists r. split; [exact Hr|]. rewrite Hlines. vm_compute. reflexivity.
Defined.


Lemma engine_follows_the_environment_witness :
  get_chat_engine Sample.docs (fun _ => inl (ValueError "not a number"))
    {[ "SYSTEM_PROMPT" := "" ]}
    = inr (Sample.engine (Some "")) /\
  system_prompt (Sample.engine (Some "")) = Some "" /\
  context_prompt (Sample.engine (Some "")) = CONTEXT_PROMPT.
Proof.
  assert (H : get_chat_engine Sample.docs
                (fun _ => inl (ValueError "not a number"))
                {[ "SYSTEM_PROMPT" := "" ]}
              = inr (Sample.engine (Some ""))) by (vm_compute; reflexivity).
  split; [exact H|].
  destruct (engine_follows_the_environment Sample.docs
              (fun _ => inl (ValueError "not a number"))
              {[ "SYSTEM_PROMPT" := "" ]}) as [_ Hok].
  destruct (Hok _ H) as (_ & Hsys & _ & _ & Hdefault & _).
  split; [reflexivity|]. apply Hdefault. vm_compute. reflexivity.
Defined.
